(** * Textami OOXML style parser: a shallow embedding of [scripts/ingest_docx.py]

    The development follows the class [OOXMLStyleParser]: the style catalog
    extractor ([extract_styles_xml]), the semantic mapping engine
    ([generate_html_semantic_mappings] with its helpers) and the driver
    ([process_full_pipeline]).

    Python values are modelled as follows.
    - [str] is [string]; the operator [in] on strings is [str_in].
    - [None]-able values are [option]s.
    - [self.styles_data] and [self.numbering_data] are insertion-ordered
      dictionaries that the code iterates over: association lists updated
      with [dict_set].
    - [mappings] and [fallbacks] are only looked up, extended and counted:
      they are [gmap string string].
    - a raised exception is the [Raise] branch of [pyres]. *)

From Stdlib Require Import Ascii String DecimalString.
From stdpp Require Import gmap strings list fin_maps.

Local Open Scope string_scope.
Local Open Scope list_scope.

(** ** Exceptions and results *)

Inductive exn_kind : Set :=
| BadZipFile      (* zipfile.ZipFile on something that is no archive; OSError alike *)
| KeyError        (* ZipFile.read of a member that is not there *)
| XMLSyntaxError  (* etree.fromstring on bytes that are no XML *)
| AttributeError  (* a method looked up on None *)
| OSError.        (* writing the output files *)

Record exn : Set := Exn { exn_class : exn_kind; exn_str : string }.

Inductive pyres (A : Type) : Type :=
| Ok (a : A)
| Raise (e : exn).
Arguments Ok {A} a.
Arguments Raise {A} e.

Definition pybind {A B} (c : pyres A) (k : A → pyres B) : pyres B :=
  match c with
  | Ok a => k a
  | Raise e => Raise e
  end.

Notation "x ←! c ; k" := (pybind c (λ x, k))
  (at level 20, c at level 100, k at level 200, right associativity,
   format "x  ←!  c ;  '/' k").

(** [for x in xs: st = body st x], stopping at the first exception. *)
Fixpoint for_each {S X} (body : S → X → pyres S) (xs : list X) (st : S) : pyres S :=
  match xs with
  | [] => Ok st
  | x :: xs' => st' ←! body st x; for_each body xs' st'
  end.

(** ** Strings *)

(** [sub in s] for two Python strings. *)
Fixpoint str_in (sub s : string) : bool :=
  String.prefix sub s ||
  match s with
  | EmptyString => false
  | String _ s' => str_in sub s'
  end.

(** The case mapping of [str.lower] on the ASCII letters. *)
Definition ascii_lower_char (c : ascii) : ascii :=
  let n := nat_of_ascii c in
  if (65 <=? n)%nat && (n <=? 90)%nat then ascii_of_nat (n + 32) else c.

Fixpoint ascii_lower (s : string) : string :=
  match s with
  | EmptyString => EmptyString
  | String c s' => String (ascii_lower_char c) (ascii_lower s')
  end.

Fixpoint is_ascii (s : string) : bool :=
  match s with
  | EmptyString => true
  | String c s' => (nat_of_ascii c <? 128)%nat && is_ascii s'
  end.

(** What the development knows of a function standing for [str.lower]:
    on names made of ASCII characters it is the ASCII case mapping. *)
Definition ascii_faithful (lower : string → string) : Prop :=
  ∀ s, is_ascii s = true → lower s = ascii_lower s.

(** [os.path.basename] on a POSIX path. *)
Fixpoint posix_basename_aux (s acc : string) : string :=
  match s with
  | EmptyString => acc
  | String c s' =>
      if decide (c = "/"%char) then posix_basename_aux s' EmptyString
      else posix_basename_aux s' (acc +:+ String c EmptyString)
  end.
Definition posix_basename (s : string) : string := posix_basename_aux s EmptyString.

(** ** Insertion-ordered dictionaries *)

Section dict.
Context {K V : Type} `{EqDecision K}.

(** [d[k] = v]: a present key keeps its place and takes the new value, a
    new key goes last. *)
Fixpoint dict_set (k : K) (v : V) (d : list (K * V)) : list (K * V) :=
  match d with
  | [] => [(k, v)]
  | (k', v') :: d' =>
      if decide (k = k') then (k, v) :: d' else (k', v') :: dict_set k v d'
  end.

Fixpoint dict_get (k : K) (d : list (K * V)) : option V :=
  match d with
  | [] => None
  | (k', v') :: d' => if decide (k = k') then Some v' else dict_get k d'
  end.
End dict.

(** ** The package on disk *)

(** A [w:style] element as the extractor reads it: its two attributes and,
    for each [w:name] and [w:basedOn] child in document order, the child's
    [w:val] attribute. *)
Record StyleElem : Set := {
  attr_styleId : option string;
  attr_type : option string;
  name_children : list (option string);
  basedOn_children : list (option string)
}.

(** A [w:num] element: its [w:numId] attribute and the [w:val] of each
    [w:abstractNumId] child. *)
Record NumElem : Set := {
  attr_numId : option string;
  abstractNumId_children : list (option string)
}.

(** An element of the document structure list built from python-docx. *)
Inductive DocElement : Set :=
| Paragraph (text style full_text : string)
| Table (rows cols : nat) (style : string).

(** A member of the archive holding XML: the bytes either parse, and then
    the XPath query yields the elements in document order, or they do not. *)
Inductive XmlPart (A : Type) : Type :=
| NotXml (msg : string)
| Xml (elems : list A).
Arguments NotXml {A} msg.
Arguments Xml {A} elems.

Record Archive : Type := {
  styles_xml : option (XmlPart StyleElem);        (* member word/styles.xml *)
  numbering_xml : option (XmlPart NumElem);       (* member word/numbering.xml *)
  docx_content : pyres (list DocElement)          (* what the walk over python-docx's Document gives *)
}.

Inductive DocxFile : Type :=
| NotAnArchive (msg : string)
| Zip (a : Archive).

(** ** The manifest *)

Record Statistics : Set := {
  total_styles_found : nat;
  mapped_styles : nat;
  fallback_styles : nat
}.

Record Manifest : Type := {
  version : string;
  generatedAt : string;
  manifest_docx_path : string;
  styles : gmap string string;
  fallbacks : gmap string string;
  warnings : list string;
  vocabulary : list string;
  statistics : Statistics
}.

(** The value of [styles[style_id]]. *)
Record StyleData : Set := {
  style_name : option string;   (* key 'name' *)
  style_type : option string;   (* key 'type' *)
  based_on : option string;     (* key 'basedOn' *)
  xmlElement : StyleElem
}.

Record NumData : Set := {
  abstractNumId : option string;
  num_xmlElement : NumElem
}.

(** The attributes of the parser object. [style_manifest] starts as the
    empty dictionary, here [None]. *)
Record OOXMLStyleParser : Type := {
  docx_path : string;
  styles_data : list (option string * StyleData);
  numbering_data : list (option string * NumData);
  document_structure : list DocElement;
  style_manifest : option Manifest
}.

Definition init (path : string) : OOXMLStyleParser :=
  {| docx_path := path; styles_data := []; numbering_data := [];
     document_structure := []; style_manifest := None |}.

(** The keys and values of [self.html_vocabulary], in the order of the
    dictionary literal. *)
Definition html_vocabulary : list (string * string) :=
  [ ("h1", "Heading 1, Title, Heading1Char");
    ("h2", "Heading 2, Subtitle, Heading2Char");
    ("h3", "Heading 3, Heading3Char");
    ("p", "Normal, BodyText, DefaultParagraphFont");
    ("p.BodyText", "Body Text, BodyTextChar");
    ("ul.Bulleted", "List Bullet, ListBullet, BulletList");
    ("ol.Numbered", "List Number, ListNumber, NumberedList");
    ("table.StdTable", "Table Grid, TableGrid, StandardTable");
    ("blockquote", "Quote, BlockText, IntenseQuote") ].

(** The outcome of [process_full_pipeline]: the dictionary with
    [success: True], or the one with [success: False] and [error]. The key
    [processing_time_seconds], a difference of two clock readings, is left
    out. *)
Inductive PipelineResult : Type :=
| Success (manifest : option Manifest) (structure : list DocElement)
          (outputs : list (string * string))
| Failure (error : string).

(** ** Style catalog extractor *)

(** The body of the [with] block up to the XPath query of a member. *)
Definition read_xml {A} (member : string) (part : option (XmlPart A)) : pyres (list A) :=
  match part with
  | None =>
      Raise (Exn KeyError ("There is no item named '" +:+ member +:+ "' in the archive"))
  | Some (NotXml msg) => Raise (Exn XMLSyntaxError msg)
  | Some (Xml elems) => Ok elems
  end.

Definition open_zip (file : DocxFile) : pyres Archive :=
  match file with
  | NotAnArchive msg => Raise (Exn BadZipFile msg)
  | Zip a => Ok a
  end.

(** [x[0].get(val) if x else dflt] *)
Definition first_val (children : list (option string)) (dflt : option string) : option string :=
  match children with
  | v :: _ => v
  | [] => dflt
  end.

(** One turn of the loop over the [w:style] elements. *)
Definition record_style (styles : list (option string * StyleData)) (style_elem : StyleElem)
  : list (option string * StyleData) :=
  let style_id := attr_styleId style_elem in
  let style_type := attr_type style_elem in
  let style_name := first_val (name_children style_elem) style_id in
  let based_on := first_val (basedOn_children style_elem) None in
  dict_set style_id
    {| style_name := style_name; style_type := style_type;
       based_on := based_on; xmlElement := style_elem |} styles.

Definition parse_styles (file : DocxFile) : pyres (list (option string * StyleData)) :=
  docx_zip ←! open_zip file;
  elems ←! read_xml "word/styles.xml" (styles_xml docx_zip);
  Ok (foldl record_style [] elems).

(** Returns the parser after the call and the returned dictionary. Any
    exception is caught: the method then returns the empty dictionary and
    leaves [self.styles_data] as it was. *)
Definition extract_styles_xml (self : OOXMLStyleParser) (file : DocxFile)
  : OOXMLStyleParser * list (option string * StyleData) :=
  match parse_styles file with
  | Ok styles =>
      ({| docx_path := docx_path self; styles_data := styles;
          numbering_data := numbering_data self;
          document_structure := document_structure self;
          style_manifest := style_manifest self |}, styles)
  | Raise e => (self, [])
  end.

(** ** Numbering catalog extractor *)

Definition record_num (numbering : list (option string * NumData)) (num_elem : NumElem)
  : list (option string * NumData) :=
  let num_id := attr_numId num_elem in
  let abstract_num_id := first_val (abstractNumId_children num_elem) None in
  dict_set num_id {| abstractNumId := abstract_num_id; num_xmlElement := num_elem |} numbering.

(** [None]: the early [return {}] when the archive has no numbering part,
    which does not assign [self.numbering_data]. *)
Definition parse_numbering (file : DocxFile)
  : pyres (option (list (option string * NumData))) :=
  docx_zip ←! open_zip file;
  match numbering_xml docx_zip with
  | None => Ok None
  | part =>
      elems ←! read_xml "word/numbering.xml" part;
      Ok (Some (foldl record_num [] elems))
  end.

Definition extract_numbering_xml (self : OOXMLStyleParser) (file : DocxFile)
  : OOXMLStyleParser * list (option string * NumData) :=
  match parse_numbering file with
  | Ok (Some numbering) =>
      ({| docx_path := docx_path self; styles_data := styles_data self;
          numbering_data := numbering;
          document_structure := document_structure self;
          style_manifest := style_manifest self |}, numbering)
  | Ok None => (self, [])
  | Raise e => (self, [])
  end.

(** ** Document structure walker *)

Definition walk_document (file : DocxFile) : pyres (list DocElement) :=
  match file with
  | NotAnArchive msg => Raise (Exn BadZipFile msg)
  | Zip a => docx_content a
  end.

Definition analyze_document_structure (self : OOXMLStyleParser) (file : DocxFile)
  : OOXMLStyleParser * list DocElement :=
  match walk_document file with
  | Ok structure =>
      ({| docx_path := docx_path self; styles_data := styles_data self;
          numbering_data := numbering_data self;
          document_structure := structure;
          style_manifest := style_manifest self |}, structure)
  | Raise e => (self, [])
  end.

(** ** Semantic mapping engine *)

(** The three local dictionaries and lists of
    [generate_html_semantic_mappings] while its loop runs. *)
Record Classification : Type := {
  mappings : gmap string string;
  warnings_so_far : list string;
  fallbacks_so_far : gmap string string
}.

Definition empty_classification : Classification :=
  {| mappings := ∅; warnings_so_far := []; fallbacks_so_far := ∅ |}.

(** [style_type not in ['paragraph', 'table']] is [negb (considered style_type)]. *)
Definition considered (ty : option string) : bool :=
  bool_decide (ty ∈ [Some "paragraph"; Some "table"]).

(** The dictionary literal [essentials]. *)
Definition essentials : list (string * string) :=
  [ ("h1", "Heading 1"); ("h2", "Heading 2"); ("p", "Normal");
    ("table.StdTable", "Table Grid") ].

Definition _generate_fallback_mapping (name : string) (ty : option string) : string :=
  if bool_decide (ty = Some "table") then "table.StdTable" else "p".

Definition _ensure_basic_mappings (mappings : gmap string string) : gmap string string :=
  foldl (λ (m : gmap string string) '(html_element, default_style),
           match m !! html_element with
           | None => <[html_element := default_style]> m
           | Some _ => m
           end)
        mappings essentials.

(** The f-string of the warning. *)
Definition warning_text (name fallback_element : string) : string :=
  "Unknown style '" +:+ name +:+ "' mapped to '" +:+ fallback_element +:+ "'".

Section Engine.
(** [str.lower], over all of Unicode, and [os.path.basename], which
    depends on the platform, are taken as given. *)
Variable lower : string → string.
Variable basename : string → string.

Definition _map_style_to_html (name : string) (ty : option string) : option string :=
  let style_lower := lower name in
  if str_in "heading 1" style_lower || bool_decide (style_lower = "title") then Some "h1"
  else if str_in "heading 2" style_lower || str_in "subtitle" style_lower then Some "h2"
  else if str_in "heading 3" style_lower then Some "h3"
  else if str_in "body" style_lower || str_in "normal" style_lower then Some "p"
  else if str_in "body text" style_lower then Some "p.BodyText"
  else if str_in "list bullet" style_lower || str_in "bullet" style_lower then Some "ul.Bulleted"
  else if str_in "list number" style_lower || str_in "numbered" style_lower then Some "ol.Numbered"
  else if bool_decide (ty = Some "table") || str_in "table" style_lower then Some "table.StdTable"
  else if str_in "quote" style_lower || str_in "block" style_lower then Some "blockquote"
  else None.

(** One turn of the loop over [self.styles_data.items()]. The name of a
    considered style goes through [style_name.lower()], which raises when
    the extractor has stored [None] for it. Every tag returned by
    [_map_style_to_html] is a non-empty string, so [if html_element]
    tests for [None]. *)
Definition classify_style (st : Classification) (item : option string * StyleData)
  : pyres Classification :=
  let style_data := item.2 in
  if negb (considered (style_type style_data)) then Ok st
  else
    match style_name style_data with
    | None => Raise (Exn AttributeError "'NoneType' object has no attribute 'lower'")
    | Some name =>
        match _map_style_to_html name (style_type style_data) with
        | Some html_element =>
            Ok {| mappings := <[html_element := name]> (mappings st);
                  warnings_so_far := warnings_so_far st;
                  fallbacks_so_far := fallbacks_so_far st |}
        | None =>
            let fallback_element :=
              _generate_fallback_mapping name (style_type style_data) in
            Ok {| mappings := mappings st;
                  warnings_so_far :=
                    warnings_so_far st ++ [warning_text name fallback_element];
                  fallbacks_so_far := <[name := fallback_element]> (fallbacks_so_far st) |}
        end
    end.

(** [now] is the reading of [datetime.now().isoformat()]. *)
Definition generate_html_semantic_mappings (self : OOXMLStyleParser) (now : string)
  : pyres (OOXMLStyleParser * Manifest) :=
  st ←! for_each classify_style (styles_data self) empty_classification;
  let mappings := _ensure_basic_mappings (mappings st) in
  let manifest :=
    {| version := "1.0";
       generatedAt := now;
       manifest_docx_path := basename (docx_path self);
       styles := mappings;
       fallbacks := fallbacks_so_far st;
       warnings := warnings_so_far st;
       vocabulary := html_vocabulary.*1;
       statistics :=
         {| total_styles_found := length (styles_data self);
            mapped_styles := size mappings;
            fallback_styles := size (fallbacks_so_far st) |} |} in
  Ok ({| docx_path := docx_path self; styles_data := styles_data self;
         numbering_data := numbering_data self;
         document_structure := document_structure self;
         style_manifest := Some manifest |}, manifest).

(** ** The driver *)

(** [save_outputs] writes three files; what it returns or raises depends
    on the file system. *)
Variable save_outputs : OOXMLStyleParser → string → pyres (list (string * string)).

(** [if output_dir] *)
Definition truthy (output_dir : option string) : option string :=
  match output_dir with
  | Some "" => None
  | d => d
  end.

Definition process_full_pipeline (self : OOXMLStyleParser) (file : DocxFile)
    (output_dir : option string) (now : string) : OOXMLStyleParser * PipelineResult :=
  let self1 := (extract_styles_xml self file).1 in
  let self2 := (extract_numbering_xml self1 file).1 in
  let self3 := (analyze_document_structure self2 file).1 in
  match generate_html_semantic_mappings self3 now with
  | Raise e => (self3, Failure (exn_str e))
  | Ok (self4, _) =>
      let saved :=
        match truthy output_dir with
        | Some dir => save_outputs self4 dir
        | None => Ok []
        end in
      match saved with
      | Raise e => (self4, Failure (exn_str e))
      | Ok outputs =>
          (self4, Success (style_manifest self4) (document_structure self4) outputs)
      end
  end.
End Engine.

(** ** The heuristic as the ordered rule list of the design

    The design describes the heuristic as ten rules tried from the top,
    the first one that fires giving the tag. [spec_rules] is that list,
    over the lower-cased name and the kind; it is compared with
    [_map_style_to_html] below. *)
Definition spec_rules : list ((string → option string → bool) * string) :=
  [ (λ s _, str_in "heading 1" s || bool_decide (s = "title"), "h1");
    (λ s _, str_in "heading 2" s || str_in "subtitle" s, "h2");
    (λ s _, str_in "heading 3" s, "h3");
    (λ s _, str_in "body" s || str_in "normal" s, "p");
    (λ s _, str_in "body text" s, "p.BodyText");
    (λ s _, str_in "list bullet" s || str_in "bullet" s, "ul.Bulleted");
    (λ s _, str_in "list number" s || str_in "numbered" s, "ol.Numbered");
    (λ s ty, bool_decide (ty = Some "table") || str_in "table" s, "table.StdTable");
    (λ s _, str_in "quote" s || str_in "block" s, "blockquote") ].

Fixpoint first_match (rules : list ((string → option string → bool) * string))
    (s : string) (ty : option string) : option string :=
  match rules with
  | [] => None
  | (fires, tag) :: rules' => if fires s ty then Some tag else first_match rules' s ty
  end.

(** ** Vocabulary of the statements *)

(** A catalog entry the loop can process: a considered style whose name
    is [None] makes [style_name.lower()] raise. *)
Definition named (item : option string * StyleData) : bool :=
  match style_name item.2 with
  | Some _ => true
  | None => negb (considered (style_type item.2))
  end.

Definition well_formed (styles : list (option string * StyleData)) : bool :=
  forallb named styles.

(** The considered styles the heuristic matches, as (tag, name), and those
    it does not, as (name, fallback tag). *)
Definition matched (lower : string → string) (item : option string * StyleData)
  : option (string * string) :=
  if considered (style_type item.2) then
    match style_name item.2 with
    | Some name =>
        match _map_style_to_html lower name (style_type item.2) with
        | Some tag => Some (tag, name)
        | None => None
        end
    | None => None
    end
  else None.

Definition unmatched (lower : string → string) (item : option string * StyleData)
  : option (string * string) :=
  if considered (style_type item.2) then
    match style_name item.2 with
    | Some name =>
        match _map_style_to_html lower name (style_type item.2) with
        | Some _ => None
        | None => Some (name, _generate_fallback_mapping name (style_type item.2))
        end
    | None => None
    end
  else None.

(** [d[k] = v] for each pair of a list, from the left. *)
Definition put_all (m : gmap string string) (kvs : list (string * string))
  : gmap string string :=
  foldl (λ (m : gmap string string) kv, <[kv.1 := kv.2]> m) m kvs.

(** What a run of the engine leaves of interest to its callers: the three
    classification fields of the manifest, or the exception. *)
Definition outcome (r : pyres (OOXMLStyleParser * Manifest))
  : pyres (gmap string string * gmap string string * list string) :=
  match r with
  | Ok (_, m) => Ok (styles m, fallbacks m, warnings m)
  | Raise e => Raise e
  end.

(** The identifiers, names and kinds of a catalog, in order. *)
Definition ids_names_kinds (styles : list (option string * StyleData))
  : list (option string * option string * option string) :=
  (λ item, (item.1, style_name item.2, style_type item.2)) <$> styles.

(** A catalog entry for a style element with the given identifier, name
    and kind and nothing else. *)
Definition style_item (id name ty : string) : option string * StyleData :=
  (Some id,
   {| style_name := Some name; style_type := Some ty; based_on := None;
      xmlElement := {| attr_styleId := Some id; attr_type := Some ty;
                       name_children := [Some name]; basedOn_children := [] |} |}).

Definition parser_with (path : string) (styles : list (option string * StyleData))
  : OOXMLStyleParser :=
  {| docx_path := path; styles_data := styles; numbering_data := [];
     document_structure := []; style_manifest := None |}.

Definition considered_styles (styles : list (option string * StyleData))
  : list (option string * StyleData) :=
  List.filter (λ item, considered (style_type item.2)) styles.

(** ** Sample catalogs *)

(** A catalog holding one character style. *)
Definition character_only : list (option string * StyleData) :=
  [ style_item "Emphasis" "Emphasis" "character" ].

(** The catalog of the end-to-end scenario of the design, followed by a
    character style. *)
Definition sample_styles : list (option string * StyleData) :=
  [ style_item "S1" "Heading 1" "paragraph";
    style_item "S2" "Normal" "paragraph";
    style_item "S3" "List Bullet" "paragraph";
    style_item "S4" "Table Grid" "table";
    style_item "S5" "Fancy Box" "paragraph";
    style_item "S6" "Strong" "character" ].

Definition sample_parser : OOXMLStyleParser :=
  parser_with "docs/report.docx" sample_styles.

Definition sample_clock : string := "2025-08-30T10:15:00".

(** Two paragraph styles matched to the same tag. *)
Definition heading_then_title (id1 id2 : string) : list (option string * StyleData) :=
  [ style_item id1 "Heading 1" "paragraph"; style_item id2 "Title" "paragraph" ].

(** ** Sample packages *)

(** The condition of a package that cannot be read: the file is no zip
    archive, or the archive has no member word/styles.xml. *)
Definition package_unreadable (file : DocxFile) : bool :=
  match file with
  | NotAnArchive _ => true
  | Zip a =>
      match styles_xml a with
      | None => true
      | Some _ => false
      end
  end.

Definition not_a_zip : DocxFile := NotAnArchive "File is not a zip file".

(** A file system on which writing the outputs succeeds. *)
Definition no_save (self : OOXMLStyleParser) (dir : string) : pyres (list (string * string)) :=
  Ok [].




(** ** Records of the extractors *)

(** The dictionary stored for a style element, and the one stored for a
    numbering element. *)
Definition style_record (style_elem : StyleElem) : StyleData :=
  {| style_name := first_val (name_children style_elem) (attr_styleId style_elem);
     style_type := attr_type style_elem;
     based_on := first_val (basedOn_children style_elem) None;
     xmlElement := style_elem |}.

Definition num_record (num_elem : NumElem) : NumData :=
  {| abstractNumId := first_val (abstractNumId_children num_elem) None;
     num_xmlElement := num_elem |}.

(** What the three extractors leave in a new parser for a file. *)
Definition catalog_of (file : DocxFile) : list (option string * StyleData) :=
  match parse_styles file with
  | Ok styles => styles
  | Raise _ => []
  end.

Definition numbering_of (file : DocxFile) : list (option string * NumData) :=
  match parse_numbering file with
  | Ok (Some numbering) => numbering
  | _ => []
  end.

Definition structure_of (file : DocxFile) : list DocElement :=
  match walk_document file with
  | Ok structure => structure
  | Raise _ => []
  end.

Definition extracted (path : string) (file : DocxFile) : OOXMLStyleParser :=
  {| docx_path := path; styles_data := catalog_of file;
     numbering_data := numbering_of file;
     document_structure := structure_of file; style_manifest := None |}.

(** ** Document structure walker, over the object model of python-docx

    [paragraph_style] is the name of [paragraph.style], [None] when the
    paragraph has no style object; a style object is taken with a name.
    The characters of a text are the units of [string], so that [len] is
    [String.length]. [table.rows] is true when there is a row. *)
Record DocxParagraph : Set := {
  paragraph_style : option string;
  paragraph_text : string
}.

Record DocxTable : Set := {
  table_rows : nat;
  table_columns : nat
}.

Record DocxDocument : Set := {
  doc_paragraphs : list DocxParagraph;
  doc_tables : list DocxTable
}.

(** [s[:n]] *)
Fixpoint str_take (n : nat) (s : string) : string :=
  match n, s with
  | S n', String c s' => String c (str_take n' s')
  | _, _ => EmptyString
  end.

Definition paragraph_element (paragraph : DocxParagraph) : DocElement :=
  let style_name :=
    match paragraph_style paragraph with
    | Some name => name
    | None => "Normal"
    end in
  let text := paragraph_text paragraph in
  Paragraph
    (if (100 <? String.length text)%nat then str_take 100 text +:+ "..." else text)
    style_name text.

Definition table_element (table : DocxTable) : DocElement :=
  Table (table_rows table)
        (if (0 <? table_rows table)%nat then table_columns table else 0)
        "TableGrid".

(** The body of the [try] block of [analyze_document_structure]. *)
Definition build_structure (doc : DocxDocument) : list DocElement :=
  (paragraph_element <$> doc_paragraphs doc) ++ (table_element <$> doc_tables doc).

(** ** HTML preview *)

(** The double quote, and the line feed of ['\n'.join]. *)
Definition dq : string := String "034"%char EmptyString.
Definition lf : string := String "010"%char EmptyString.

(** [s.split('.')[0]] *)
Fixpoint before_dot (s : string) : string :=
  match s with
  | EmptyString => EmptyString
  | String c s' => if decide (c = "."%char) then EmptyString else String c (before_dot s')
  end.

(** [c.isspace()] for a character below 256. *)
Definition is_space (c : ascii) : bool :=
  let n := nat_of_ascii c in
  ((9 <=? n)%nat && (n <=? 13)%nat) || ((28 <=? n)%nat && (n <=? 32)%nat) ||
  (n =? 133)%nat || (n =? 160)%nat.

(** [not s.strip()] *)
Fixpoint blank (s : string) : bool :=
  match s with
  | EmptyString => true
  | String c s' => is_space c && blank s'
  end.

(** [str(n)] for a count. *)
Definition str_of_nat (n : nat) : string := NilZero.string_of_uint (Nat.to_uint n).

(** [sep.join(parts)] *)
Fixpoint join (sep : string) (parts : list string) : string :=
  match parts with
  | [] => EmptyString
  | [part] => part
  | part :: parts' => part +:+ sep +:+ join sep parts'
  end.

Definition _generate_preview_css : string :=
  "
        .document-preview {
            max-width: 800px;
            margin: 20px auto;
            padding: 20px;
            font-family: 'Segoe UI', Tahoma, Geneva, Verdana, sans-serif;
            line-height: 1.6;
        }
        h1 { color: #2c3e50; border-bottom: 2px solid #3498db; }
        h2 { color: #34495e; border-bottom: 1px solid #bdc3c7; }
        h3 { color: #34495e; }
        .BodyText { margin: 10px 0; }
        .StdTable { border-collapse: collapse; width: 100%; margin: 10px 0; }
        .StdTable td { border: 1px solid #ddd; padding: 8px; }
        blockquote { border-left: 4px solid #3498db; margin: 10px 0; padding-left: 15px; }
        ".

(** [items] is [self.style_manifest.get('styles', {}).items()], in the
    order of the dictionary. *)
Fixpoint _style_to_html_element (items : list (string * string)) (name : string) : string :=
  match items with
  | [] => "p"
  | (html_elem, mapped_style) :: items' =>
      if decide (mapped_style = name) then before_dot html_elem
      else _style_to_html_element items' name
  end.

(** The line appended for an element of the document structure, if any. *)
Definition preview_line (items : list (string * string)) (element : DocElement)
  : option string :=
  match element with
  | Paragraph text style _ =>
      if negb (blank text) then
        let html_element := _style_to_html_element items style in
        Some ("<" +:+ html_element +:+ ">" +:+ text +:+ "</" +:+ html_element +:+ ">")
      else None
  | Table rows cols _ =>
      Some ("<table class=" +:+ dq +:+ "StdTable" +:+ dq +:+ "><tr><td>[Table " +:+
            str_of_nat rows +:+ "x" +:+ str_of_nat cols +:+ "]</td></tr></table>")
  end.

Definition html_parts (items : list (string * string)) (structure : list DocElement)
  : list string :=
  [ "<!DOCTYPE html>"; "<html>"; "<head>";
    "<meta charset=" +:+ dq +:+ "UTF-8" +:+ dq +:+ ">";
    "<title>DOCX Preview - Textami</title>";
    "<style>"; _generate_preview_css; "</style>";
    "</head>"; "<body>";
    "<div class=" +:+ dq +:+ "document-preview" +:+ dq +:+ ">" ] ++
  omap (preview_line items) structure ++
  [ "</div>"; "</body>"; "</html>" ].

Definition generate_html_preview (items : list (string * string))
    (structure : list DocElement) : string :=
  join lf (html_parts items structure).

(** The tag names the preview can use. *)
Definition preview_tags : list string :=
  [ "h1"; "h2"; "h3"; "p"; "ul"; "ol"; "table"; "blockquote" ].

(** ** Reading a result *)


(** ** More samples *)

(** A paragraph style element with neither identifier nor name. *)
Definition nameless_style : StyleElem :=
  {| attr_styleId := None; attr_type := Some "paragraph";
     name_children := []; basedOn_children := [] |}.

Definition plain_style (id name ty : string) : StyleElem :=
  {| attr_styleId := Some id; attr_type := Some ty;
     name_children := [Some name]; basedOn_children := [] |}.

Definition sample_elems : list StyleElem :=
  [ plain_style "S1" "Heading 1" "paragraph";
    plain_style "S2" "Fancy Box" "paragraph";
    plain_style "S3" "Strong" "character" ].

Definition sample_archive : Archive :=
  {| styles_xml := Some (Xml sample_elems); numbering_xml := None;
     docx_content := Ok [ Paragraph "Annual report" "Heading 1" "Annual report" ] |}.


Definition nameless_archive : Archive :=
  {| styles_xml := Some (Xml [plain_style "S1" "Heading 1" "paragraph"; nameless_style]);
     numbering_xml := None; docx_content := Ok [] |}.

Definition sample_num : NumElem :=
  {| attr_numId := Some "1"; abstractNumId_children := [Some "0"] |}.

Definition numbered_archive : Archive :=
  {| styles_xml := None; numbering_xml := Some (Xml [sample_num]);
     docx_content := Ok [] |}.

Definition sample_document : DocxDocument :=
  {| doc_paragraphs :=
       [ {| paragraph_style := Some "Heading 1"; paragraph_text := "Results" |};
         {| paragraph_style := None; paragraph_text := "See the table above." |} ];
     doc_tables := [ {| table_rows := 2; table_columns := 3 |} ] |}.

Definition document_archive : Archive :=
  {| styles_xml := None; numbering_xml := None;
     docx_content := Ok (build_structure sample_document) |}.

(** A paragraph of 120 characters. *)
Definition long_paragraph : DocxParagraph :=
  {| paragraph_style := None;
     paragraph_text :=
       "0123456789012345678901234567890123456789012345678901234567890123456789012345678901234567890123456789ABCDEFGHIJKLMNOPQRST" |}.

(** The elements of the document structure that give a line of the
    preview: the tables, and the paragraphs whose text is not blank. *)
Definition rendered (element : DocElement) : bool :=
  match element with
  | Paragraph text _ _ => negb (blank text)
  | Table _ _ _ => true
  end.

Definition sample_items : list (string * string) :=
  [ ("h1", "Heading 1"); ("p", "Normal"); ("table.StdTable", "Table Grid") ].

Definition sample_structure : list DocElement :=
  [ Paragraph "Profit & <loss>" "Heading 1" "Profit & <loss>";
    Paragraph "   " "Normal" "   ";
    Table 2 3 "TableGrid" ].

(** * Properties *)

(** ** Substrings *)

Lemma prefix_app_l (a b s : string) :
  String.prefix (a +:+ b) s = true → String.prefix a s = true.
Proof.
  revert s. induction a as [|c a IH]; intros s H.
  - by destruct s.
  - destruct s as [|d s]; simpl in *; [done|].
    destruct (Ascii.ascii_dec c d); [by apply IH | done].
Qed.

Lemma str_in_app_l (a b s : string) :
  str_in (a +:+ b) s = true → str_in a s = true.
Proof.
  induction s as [|c s IH]; cbn [str_in]; intros H.
  - apply orb_true_iff in H as [H|H]; [|done].
    by rewrite (prefix_app_l a b "" H).
  - apply orb_true_iff in H as [H|H].
    + by rewrite (prefix_app_l a b _ H).
    + rewrite (IH H). by rewrite orb_true_r.
Qed.

Lemma body_text_has_body (s : string) :
  str_in "body text" s = true → str_in "body" s = true.
Proof. apply (str_in_app_l "body" " text"). Qed.

(** ** The heuristic *)

Section Heuristic.
Variable lower : string → string.

Lemma map_style_first_match (name : string) (ty : option string) :
  _map_style_to_html lower name ty = first_match spec_rules (lower name) ty.
Proof. reflexivity. Qed.

Lemma map_style_not_body_text (name : string) (ty : option string) :
  _map_style_to_html lower name ty ≠ Some "p.BodyText".
Proof.
  unfold _map_style_to_html.
  repeat match goal with
         | |- context [if ?b then _ else _] =>
             let E := fresh "E" in destruct b eqn:E; try discriminate
         end.
  apply orb_false_iff in E2 as [Hbody _].
  by rewrite (body_text_has_body _ E3) in Hbody.
Qed.

(** Every tag the heuristic gives is a key of the vocabulary. *)
Lemma map_style_in_vocabulary (name : string) (ty : option string) (tag : string) :
  _map_style_to_html lower name ty = Some tag → tag ∈ html_vocabulary.*1.
Proof.
  unfold _map_style_to_html.
  repeat match goal with
         | |- context [if ?b then _ else _] => destruct b
         end; intros [= <-]; simpl; set_solver.
Qed.

(** A style of kind table is always matched, by rule 8 at the latest. *)
Lemma map_style_table (name : string) :
  is_Some (_map_style_to_html lower name (Some "table")).
Proof.
  unfold _map_style_to_html.
  repeat match goal with
         | |- context [if ?b then _ else _] =>
             let E := fresh "E" in destruct b eqn:E; try by eexists
         end.
Qed.
End Heuristic.

(** ** The classification loop *)

Lemma for_each_app {S X} (body : S → X → pyres S) (xs ys : list X) (st : S) :
  for_each body (xs ++ ys) st = (st' ←! for_each body xs st; for_each body ys st').
Proof.
  revert st. induction xs as [|x xs IH]; intros st; simpl; [done|].
  destruct (body st x); simpl; [apply IH | done].
Qed.

Lemma put_all_app (m : gmap string string) (l1 l2 : list (string * string)) :
  put_all m (l1 ++ l2) = put_all (put_all m l1) l2.
Proof. apply foldl_app. Qed.

Lemma put_all_lookup_notin (m : gmap string string) (l : list (string * string)) (k : string) :
  k ∉ l.*1 → put_all m l !! k = m !! k.
Proof.
  revert m. induction l as [|[k' v] l IH]; intros m Hk; simpl; [done|].
  rewrite fmap_cons, not_elem_of_cons in Hk. destruct Hk as [Hne Hk].
  unfold put_all in *. simpl. rewrite IH by done. by rewrite lookup_insert_ne.
Qed.

Lemma put_all_dom (m : gmap string string) (l : list (string * string)) :
  dom (put_all m l) = dom m ∪ list_to_set l.*1.
Proof.
  revert m. induction l as [|[k v] l IH]; intros m; simpl.
  - by rewrite (right_id_L ∅ (∪)).
  - unfold put_all in *. simpl. rewrite IH, dom_insert_L.
    by rewrite (comm_L (∪) {[k]} (dom m)), (assoc_L (∪)).
Qed.

Section Loop.
Variable lower : string → string.

(** On a well-formed catalog the loop ends normally, and its three
    results are the folds of the matched and of the unmatched styles. *)
Lemma loop_spec (styles : list (option string * StyleData)) (st : Classification) :
  well_formed styles = true →
  for_each (classify_style lower) styles st =
  Ok {| mappings := put_all (mappings st) (omap (matched lower) styles);
        warnings_so_far :=
          warnings_so_far st ++
          ((λ nt, warning_text nt.1 nt.2) <$> omap (unmatched lower) styles);
        fallbacks_so_far :=
          put_all (fallbacks_so_far st) (omap (unmatched lower) styles) |}.
Proof.
  revert st. induction styles as [|[id sd] styles IH]; intros st Hwf.
  - simpl. rewrite app_nil_r. by destruct st.
  - simpl in Hwf. apply andb_true_iff in Hwf as [Hn Hwf].
    cbn [for_each omap list_omap]. unfold classify_style, matched, unmatched, named in *.
    simpl in *.
    destruct (considered (style_type sd)); simpl.
    + destruct (style_name sd) as [name|]; [|done].
      destruct (_map_style_to_html lower name (style_type sd)) as [tag|]; simpl.
      * by rewrite IH.
      * rewrite IH by done. simpl. by rewrite <- app_assoc.
    + by rewrite IH.
Qed.

(** The loop raises on a catalog that is not well-formed. *)
Lemma loop_raises (styles : list (option string * StyleData)) (st : Classification) :
  well_formed styles = false →
  ∃ e, for_each (classify_style lower) styles st = Raise e.
Proof.
  revert st. induction styles as [|[id sd] l IH]; intros st Hwf; [done|].
  simpl in Hwf. simpl. unfold classify_style at 1. unfold named in Hwf. simpl in *.
  destruct (considered (style_type sd)); simpl in *.
  - destruct (style_name sd) as [name|]; [|by eexists].
    destruct (_map_style_to_html lower name (style_type sd)); simpl; by apply IH.
  - destruct (style_name sd); by apply IH.
Qed.

(** A style that is not considered is passed over, whatever its name. *)
Lemma classify_style_skip (st : Classification) (item : option string * StyleData) :
  considered (style_type item.2) = false → classify_style lower st item = Ok st.
Proof. intros H. unfold classify_style. by rewrite H. Qed.

(** The loop reads the name and the kind of an entry only. *)
Lemma for_each_names_kinds (l1 l2 : list (option string * StyleData)) (st : Classification) :
  ids_names_kinds l1 = ids_names_kinds l2 →
  for_each (classify_style lower) l1 st = for_each (classify_style lower) l2 st.
Proof.
  revert l2 st. induction l1 as [|[i1 d1] l1 IH]; intros [|[i2 d2] l2] st H;
    try discriminate; [done|].
  unfold ids_names_kinds in H. simpl in H. injection H as Hi Hn Ht Hl.
  simpl. unfold classify_style at 1 3. simpl. rewrite Hn, Ht.
  destruct (considered (style_type d2)); simpl.
  - destruct (style_name d2) as [name|]; [|done].
    destruct (_map_style_to_html lower name (style_type d2)); simpl; by apply IH.
  - by apply IH.
Qed.
End Loop.

(** ** The post-pass and the manifest *)

Lemma ensure_step_union (m M : gmap string string) (k d : string) :
  match m !! k with
  | None => <[k := d]> m
  | Some _ => m
  end ∪ M = m ∪ <[k := d]> M.
Proof.
  apply map_eq. intros j. rewrite !lookup_union.
  destruct (m !! k) as [v|] eqn:Hk.
  - destruct (decide (k = j)) as [<-|Hne].
    + rewrite Hk, lookup_insert_eq. by destruct (M !! k).
    + by rewrite lookup_insert_ne.
  - destruct (decide (k = j)) as [<-|Hne].
    + rewrite !lookup_insert_eq, Hk. by destruct (M !! k).
    + by rewrite !lookup_insert_ne.
Qed.

(** The post-pass adds the essential defaults below what is there. *)
Lemma ensure_basic_union (m : gmap string string) :
  _ensure_basic_mappings m = m ∪ list_to_map essentials.
Proof.
  unfold _ensure_basic_mappings. generalize essentials as l.
  intros l. revert m. induction l as [|[k d] l IH]; intros m; simpl.
  - by rewrite (right_id_L ∅ (∪)).
  - rewrite IH. apply ensure_step_union.
Qed.

Lemma essentials_keys_NoDup : NoDup essentials.*1.
Proof. by apply (bool_decide_unpack _). Qed.

Lemma vocabulary_keys_NoDup : NoDup html_vocabulary.*1.
Proof. by apply (bool_decide_unpack _). Qed.

Lemma essentials_in_vocabulary : essentials.*1 ⊆ html_vocabulary.*1.
Proof. by apply (bool_decide_unpack _). Qed.

Section Manifest.
Variable lower : string → string.
Variable basename : string → string.

(** On a well-formed catalog the engine returns, and this is the
    manifest it returns. *)
Lemma generate_spec (self : OOXMLStyleParser) (now : string) :
  well_formed (styles_data self) = true →
  ∃ self' m,
    generate_html_semantic_mappings lower basename self now = Ok (self', m) ∧
    style_manifest self' = Some m ∧
    styles m =
      put_all ∅ (omap (matched lower) (styles_data self)) ∪ list_to_map essentials ∧
    fallbacks m = put_all ∅ (omap (unmatched lower) (styles_data self)) ∧
    warnings m =
      ((λ nt, warning_text nt.1 nt.2) <$> omap (unmatched lower) (styles_data self)) ∧
    statistics m =
      {| total_styles_found := length (styles_data self);
         mapped_styles := size (styles m);
         fallback_styles := size (fallbacks m) |}.
Proof.
  intros Hwf. unfold generate_html_semantic_mappings.
  rewrite (loop_spec lower _ _ Hwf). simpl.
  eexists _, _. split; [reflexivity|]. simpl.
  by rewrite ensure_basic_union.
Qed.

(** A catalog that is not well-formed makes the engine raise. *)
Lemma generate_raises (self : OOXMLStyleParser) (now : string) :
  well_formed (styles_data self) = false →
  ∃ e, generate_html_semantic_mappings lower basename self now = Raise e.
Proof.
  intros Hwf. unfold generate_html_semantic_mappings.
  destruct (loop_raises lower _ empty_classification Hwf) as [e ->].
  by exists e.
Qed.
End Manifest.

(** * The claims *)

(** ** Statistics *)

(** C3, as the code has it: on a well-formed catalog the engine returns a
    manifest whose statistics are the number of entries of the whole style
    catalog, of whatever kind, the number of entries of the mappings and
    the number of entries of the fallbacks. *)
Theorem statistics_count_catalog (lower basename : string → string)
    (self : OOXMLStyleParser) (now : string) :
  well_formed (styles_data self) = true →
  ∃ self' m,
    generate_html_semantic_mappings lower basename self now = Ok (self', m) ∧
    total_styles_found (statistics m) = length (styles_data self) ∧
    total_styles_found (statistics m) =
      length (considered_styles (styles_data self)) +
      length (List.filter (λ item, negb (considered (style_type item.2))) (styles_data self)) ∧
    mapped_styles (statistics m) = size (styles m) ∧
    fallback_styles (statistics m) = size (fallbacks m).
Proof.
  intros Hwf.
  destruct (generate_spec lower basename self now Hwf)
    as (self' & m & Hgen & _ & _ & _ & _ & Hstat).
  exists self', m. rewrite Hstat. simpl. split_and!; try done.
  unfold considered_styles. by rewrite List.filter_length.
Qed.

Lemma statistics_count_catalog_witness :
  ∃ self' m,
    generate_html_semantic_mappings ascii_lower posix_basename sample_parser sample_clock
      = Ok (self', m) ∧
    total_styles_found (statistics m) = length (styles_data sample_parser) ∧
    total_styles_found (statistics m) =
      length (considered_styles (styles_data sample_parser)) +
      length (List.filter (λ item, negb (considered (style_type item.2)))
                (styles_data sample_parser)) ∧
    mapped_styles (statistics m) = size (styles m) ∧
    fallback_styles (statistics m) = size (fallbacks m).
Proof.
  apply (statistics_count_catalog ascii_lower posix_basename sample_parser sample_clock).
  reflexivity.
Defined.

(** C3, as the claim has it, fails: for the catalog made of one character
    style the manifest reports one style found, while no style is
    considered. *)
Lemma statistics_total_counts_character_style :
  ∃ self' m,
    generate_html_semantic_mappings ascii_lower posix_basename
      (parser_with "docs/report.docx" character_only) sample_clock = Ok (self', m) ∧
    length (considered_styles character_only) = 0 ∧
    total_styles_found (statistics m) = 1.
Proof. eexists _, _. split; [reflexivity|]. split; reflexivity. Qed.

(** ** Essential tags *)

(** C5: on every well-formed catalog the engine returns a manifest; each
    of the four essential tags has an entry in its mappings; an essential
    tag that no considered style is matched to carries its placeholder
    name; on the empty catalog the mappings are exactly the four
    defaults. *)
Theorem essential_tags_present (lower basename : string → string)
    (self : OOXMLStyleParser) (now : string) :
  well_formed (styles_data self) = true →
  ∃ self' m,
    generate_html_semantic_mappings lower basename self now = Ok (self', m) ∧
    (∀ tag placeholder, (tag, placeholder) ∈ essentials →
       ∃ name, styles m !! tag = Some name ∧
         (tag ∉ (omap (matched lower) (styles_data self)).*1 → name = placeholder)) ∧
    (styles_data self = [] →
       styles m = list_to_map essentials ∧ size (styles m) = 4 ∧
       fallbacks m = ∅ ∧ warnings m = []).
Proof.
  intros Hwf.
  destruct (generate_spec lower basename self now Hwf)
    as (self' & m & Hgen & _ & Hst & Hfb & Hw & _).
  exists self', m. split; [done|]. split.
  - intros tag d Hin.
    pose proof (elem_of_list_to_map_1 (M := gmap string) _ _ _
                  essentials_keys_NoDup Hin) as Hd.
    rewrite Hst.
    destruct (put_all ∅ (omap (matched lower) (styles_data self)) !! tag)
      as [name|] eqn:Hl.
    + exists name. split.
      * by apply lookup_union_Some_l.
      * intros Hnot. by rewrite put_all_lookup_notin, lookup_empty in Hl.
    + exists d. split; [|done]. by rewrite lookup_union_r.
  - intros Hnil. rewrite Hst, Hfb, Hw, Hnil. simpl.
    unfold put_all. simpl. by rewrite (left_id_L ∅ (∪)).
Qed.

Lemma essential_tags_present_witness :
  ∃ self' m,
    generate_html_semantic_mappings ascii_lower posix_basename (init "empty.docx")
      sample_clock = Ok (self', m) ∧
    (∀ tag placeholder, (tag, placeholder) ∈ essentials →
       ∃ name, styles m !! tag = Some name ∧
         (tag ∉ (omap (matched ascii_lower) (styles_data (init "empty.docx"))).*1 →
          name = placeholder)) ∧
    (styles_data (init "empty.docx") = [] →
       styles m = list_to_map essentials ∧ size (styles m) = 4 ∧
       fallbacks m = ∅ ∧ warnings m = []).
Proof.
  apply (essential_tags_present ascii_lower posix_basename (init "empty.docx") sample_clock).
  reflexivity.
Defined.

(** ** Overwriting *)

(** C6: when a considered style is matched to a tag and no style after it
    in the catalog is matched to that tag, the mappings of the manifest
    give its name for the tag, whatever was matched to the tag before; for
    two paragraph styles named Heading 1 and Title, in that order, the
    entry for h1 is Title. *)
Theorem last_write_wins (lower basename : string → string) :
  ascii_faithful lower →
  (∀ self now (pre post : list (option string * StyleData)) item tag name,
     styles_data self = pre ++ item :: post →
     well_formed (styles_data self) = true →
     matched lower item = Some (tag, name) →
     tag ∉ (omap (matched lower) post).*1 →
     ∃ self' m,
       generate_html_semantic_mappings lower basename self now = Ok (self', m) ∧
       styles m !! tag = Some name) ∧
  (∀ path id1 id2 now,
     ∃ self' m,
       generate_html_semantic_mappings lower basename
         (parser_with path (heading_then_title id1 id2)) now = Ok (self', m) ∧
       styles m !! "h1" = Some "Title").
Proof.
  intros Hlower.
  assert (Hgeneral : ∀ self now (pre post : list (option string * StyleData)) item tag name,
     styles_data self = pre ++ item :: post →
     well_formed (styles_data self) = true →
     matched lower item = Some (tag, name) →
     tag ∉ (omap (matched lower) post).*1 →
     ∃ self' m,
       generate_html_semantic_mappings lower basename self now = Ok (self', m) ∧
       styles m !! tag = Some name).
  { intros self now pre post item tag name Hsplit Hwf Hitem Hpost.
    destruct (generate_spec lower basename self now Hwf)
      as (self' & m & Hgen & _ & Hst & _).
    exists self', m. split; [done|].
    rewrite Hst, Hsplit. apply lookup_union_Some_l.
    rewrite omap_app. cbn [omap list_omap]. rewrite Hitem.
    rewrite put_all_app. unfold put_all at 1. cbn [foldl fst snd].
    fold (put_all (<[tag:=name]> (put_all ∅ (omap (matched lower) pre)))
            (omap (matched lower) post)).
    rewrite put_all_lookup_notin by done. apply lookup_insert_eq. }
  split; [exact Hgeneral|].
  intros path id1 id2 now.
  apply (Hgeneral (parser_with path (heading_then_title id1 id2)) now
           [style_item id1 "Heading 1" "paragraph"] []
           (style_item id2 "Title" "paragraph")); try done.
  - unfold matched, _map_style_to_html. simpl.
    by rewrite (Hlower "Title" eq_refl).
  - simpl. apply not_elem_of_nil.
Qed.

Lemma last_write_wins_witness :
  ∃ self' m,
    generate_html_semantic_mappings ascii_lower posix_basename
      (parser_with "docs/report.docx" (heading_then_title "S1" "S2")) sample_clock
      = Ok (self', m) ∧
    styles m !! "h1" = Some "Title".
Proof.
  apply (last_write_wins ascii_lower posix_basename).
  intros s _. reflexivity.
Defined.

(** ** Size of the mappings *)

(** C10: on every well-formed catalog the engine returns a manifest whose
    mappings have their keys in the nine-tag vocabulary, hold the four
    essential tags and so count between four and nine entries, which is
    what the statistics report as mapped styles. A catalog that is not
    well-formed yields no manifest. *)
Theorem mappings_size_bounds (lower basename : string → string)
    (self : OOXMLStyleParser) (now : string) :
  (well_formed (styles_data self) = true →
   ∃ self' m,
     generate_html_semantic_mappings lower basename self now = Ok (self', m) ∧
     dom (styles m) ⊆ list_to_set html_vocabulary.*1 ∧
     list_to_set essentials.*1 ⊆ dom (styles m) ∧
     (4 ≤ size (styles m) ≤ 9)%nat ∧
     (4 ≤ mapped_styles (statistics m) ≤ 9)%nat) ∧
  (well_formed (styles_data self) = false →
   ∃ e, generate_html_semantic_mappings lower basename self now = Raise e).
Proof.
  split; [|apply generate_raises].
  intros Hwf.
  destruct (generate_spec lower basename self now Hwf)
    as (self' & m & Hgen & _ & Hst & _ & _ & Hstat).
  exists self', m. split; [done|].
  assert (Hdom : dom (styles m) =
    list_to_set (omap (matched lower) (styles_data self)).*1 ∪
    list_to_set essentials.*1).
  { rewrite Hst, dom_union_L, put_all_dom, dom_empty_L, dom_list_to_map_L.
    by rewrite (left_id_L ∅ (∪)). }
  assert (Hup : dom (styles m) ⊆@{gset string} list_to_set html_vocabulary.*1).
  { rewrite Hdom. apply union_least.
    - intros tag Htag. apply elem_of_list_to_set in Htag.
      apply list_elem_of_fmap in Htag as ([tag' name] & -> & Hin).
      apply list_elem_of_omap in Hin as (item & _ & Hitem).
      apply elem_of_list_to_set. unfold matched in Hitem.
      destruct (considered (style_type item.2)); [|done].
      destruct (style_name item.2) as [n|]; [|done].
      destruct (_map_style_to_html lower n (style_type item.2)) as [t|] eqn:Hmap;
        [|done].
      injection Hitem as <- <-. by apply (map_style_in_vocabulary lower n _ _ Hmap).
    - intros tag Htag. apply elem_of_list_to_set in Htag.
      apply elem_of_list_to_set. by apply essentials_in_vocabulary. }
  assert (Hlow : list_to_set essentials.*1 ⊆@{gset string} dom (styles m)).
  { rewrite Hdom. apply union_subseteq_r. }
  assert (Hsize : (4 ≤ size (styles m) ≤ 9)%nat).
  { rewrite <- size_dom. split.
    - apply subseteq_size in Hlow.
      by rewrite (size_list_to_set _ essentials_keys_NoDup) in Hlow.
    - apply subseteq_size in Hup.
      by rewrite (size_list_to_set _ vocabulary_keys_NoDup) in Hup. }
  split; [exact Hup|]. split; [exact Hlow|]. split; [exact Hsize|].
  rewrite Hstat. exact Hsize.
Qed.

Lemma mappings_size_bounds_witness :
  ∃ self' m,
    generate_html_semantic_mappings ascii_lower posix_basename sample_parser sample_clock
      = Ok (self', m) ∧
    dom (styles m) ⊆ list_to_set html_vocabulary.*1 ∧
    list_to_set essentials.*1 ⊆ dom (styles m) ∧
    (4 ≤ size (styles m) ≤ 9)%nat ∧
    (4 ≤ mapped_styles (statistics m) ≤ 9)%nat.
Proof.
  apply (mappings_size_bounds ascii_lower posix_basename sample_parser sample_clock).
  reflexivity.
Defined.

(** ** Fallbacks *)


(** An unmatched considered style is of kind paragraph, and its fallback
    tag is p. *)
Lemma unmatched_falls_back_to_p (lower : string → string)
    (item : option string * StyleData) (nt : string * string) :
  unmatched lower item = Some nt →
  style_name item.2 = Some nt.1 ∧ considered (style_type item.2) = true ∧
  nt.2 = "p".
Proof.
  unfold unmatched. destruct (considered (style_type item.2)) eqn:Hc; [|done].
  destruct (style_name item.2) as [name|]; [|done].
  destruct (_map_style_to_html lower name (style_type item.2)) eqn:Hmap; [done|].
  intros [= <-]. simpl. split_and!; try done.
  unfold _generate_fallback_mapping. case_bool_decide as Ht; [|done].
  rewrite Ht in Hmap. destruct (map_style_table lower name) as [t Hsome]. congruence.
Qed.



(** ** Styles that are not considered *)

Lemma generate_outcome (lower basename : string → string)
    (self : OOXMLStyleParser) (now : string) :
  outcome (generate_html_semantic_mappings lower basename self now) =
  match for_each (classify_style lower) (styles_data self) empty_classification with
  | Ok st => Ok (_ensure_basic_mappings (mappings st), fallbacks_so_far st, warnings_so_far st)
  | Raise e => Raise e
  end.
Proof.
  unfold generate_html_semantic_mappings.
  by destruct (for_each (classify_style lower) (styles_data self) empty_classification).
Qed.

(** C8: a style whose kind is neither paragraph nor table leaves the
    state of the loop as it finds it; the mappings, fallbacks and warnings
    of a run are those of the run on the catalog without that style; and
    when no considered style of the catalog bears its name, that name is
    no key of the fallbacks. *)
Theorem skip_not_considered (lower basename : string → string)
    (item : option string * StyleData) :
  considered (style_type item.2) = false →
  (∀ st, classify_style lower st item = Ok st) ∧
  (∀ self1 self2 (pre post : list (option string * StyleData)) now1 now2,
     styles_data self1 = pre ++ item :: post →
     styles_data self2 = pre ++ post →
     outcome (generate_html_semantic_mappings lower basename self1 now1) =
     outcome (generate_html_semantic_mappings lower basename self2 now2)) ∧
  (∀ self now self' m name,
     generate_html_semantic_mappings lower basename self now = Ok (self', m) →
     item ∈ styles_data self →
     style_name item.2 = Some name →
     (∀ other, other ∈ styles_data self → style_name other.2 = Some name →
               considered (style_type other.2) = false) →
     fallbacks m !! name = None).
Proof.
  intros Hskip. split; [|split].
  - intros st. by apply classify_style_skip.
  - intros self1 self2 pre post now1 now2 H1 H2.
    rewrite !generate_outcome, H1, H2, !for_each_app.
    destruct (for_each (classify_style lower) pre empty_classification) as [st|e];
      simpl; [|done].
    by rewrite (classify_style_skip lower st item Hskip).
  - intros self now self' m name Hgen Hin Hname Hothers.
    destruct (well_formed (styles_data self)) eqn:Hwf.
    + destruct (generate_spec lower basename self now Hwf)
        as (self2 & m2 & Hgen2 & _ & _ & Hfb & _).
      rewrite Hgen in Hgen2. injection Hgen2 as <- <-.
      rewrite Hfb, put_all_lookup_notin; [apply lookup_empty|].
      intros Hkey. apply list_elem_of_fmap in Hkey as ([n t] & -> & Hnt).
      apply list_elem_of_omap in Hnt as (other & Hother & Hun).
      destruct (unmatched_falls_back_to_p lower other _ Hun) as (Hn & Hc & _).
      simpl in Hn. by rewrite (Hothers other Hother Hn) in Hc.
    + destruct (generate_raises lower basename self now Hwf) as [e He]. congruence.
Qed.

Lemma skip_not_considered_witness :
  (∀ st, classify_style ascii_lower st (style_item "S6" "Strong" "character") = Ok st) ∧
  outcome (generate_html_semantic_mappings ascii_lower posix_basename
             sample_parser sample_clock) =
  outcome (generate_html_semantic_mappings ascii_lower posix_basename
             (parser_with "docs/report.docx" (take 5 sample_styles)) sample_clock).
Proof.
  destruct (skip_not_considered ascii_lower posix_basename
              (style_item "S6" "Strong" "character") eq_refl) as (Hstep & Hrun & _).
  split; [exact Hstep|].
  apply (Hrun sample_parser (parser_with "docs/report.docx" (take 5 sample_styles))
           (take 5 sample_styles) []); reflexivity.
Defined.

(** ** Determinism *)

(** C9: two runs on catalogs with the same identifiers, names and kinds
    in the same order end alike, whatever the clock, the path and the rest
    of the style records: both raise the same exception, or both return
    manifests with the same mappings, the same fallbacks and the same
    warnings in the same order. *)
Theorem classification_deterministic (lower basename1 basename2 : string → string)
    (self1 self2 : OOXMLStyleParser) (now1 now2 : string) :
  ids_names_kinds (styles_data self1) = ids_names_kinds (styles_data self2) →
  outcome (generate_html_semantic_mappings lower basename1 self1 now1) =
  outcome (generate_html_semantic_mappings lower basename2 self2 now2).
Proof.
  intros Hsame. rewrite !generate_outcome.
  by rewrite (for_each_names_kinds lower _ _ _ Hsame).
Qed.

Lemma classification_deterministic_witness :
  outcome (generate_html_semantic_mappings ascii_lower posix_basename
             sample_parser sample_clock) =
  outcome (generate_html_semantic_mappings ascii_lower (λ path, path)
             (parser_with "elsewhere/copy.docx" sample_styles) "2026-01-01T00:00:00").
Proof.
  apply (classification_deterministic ascii_lower posix_basename (λ path, path)
           sample_parser (parser_with "elsewhere/copy.docx" sample_styles)).
  reflexivity.
Defined.

(** ** Rule order *)

(** C4: the heuristic is the first-match scan of the ordered rule list,
    in which the rule for body and normal stands before the rule for body
    text; a name whose lower-cased form contains body and which none of
    the first three rules matches is given the tag p; and no name of any
    kind is given the tag p.BodyText. *)
Theorem body_text_unreachable (lower : string → string) (name : string)
    (ty : option string) :
  _map_style_to_html lower name ty = first_match spec_rules (lower name) ty ∧
  (spec_rules.*2 !! 3 = Some "p" ∧ spec_rules.*2 !! 4 = Some "p.BodyText") ∧
  (str_in "body" (lower name) = true →
   first_match (take 3 spec_rules) (lower name) ty = None →
   _map_style_to_html lower name ty = Some "p") ∧
  _map_style_to_html lower name ty ≠ Some "p.BodyText".
Proof.
  split; [reflexivity|]. split; [done|]. split; [|apply map_style_not_body_text].
  unfold _map_style_to_html. simpl. intros Hbody Hfirst.
  repeat match type of Hfirst with
         | (if ?b then _ else _) = None => destruct b; [discriminate|]
         end.
  by rewrite Hbody.
Qed.

Lemma body_text_unreachable_witness :
  _map_style_to_html ascii_lower "Body Text" (Some "paragraph") = Some "p".
Proof.
  apply (body_text_unreachable ascii_lower "Body Text" (Some "paragraph"));
    reflexivity.
Defined.

(** ** Extraction *)

Section dict_facts.
Context {K V : Type} `{EqDecision K}.

Lemma dict_get_set_eq (k : K) (v : V) (d : list (K * V)) :
  dict_get k (dict_set k v d) = Some v.
Proof.
  induction d as [|[k' v'] d IH]; simpl.
  - by rewrite decide_True.
  - destruct (decide (k = k')) as [->|Hne]; simpl.
    + by rewrite decide_True.
    + by rewrite decide_False.
Qed.

Lemma dict_get_set_ne (k k' : K) (v : V) (d : list (K * V)) :
  k ≠ k' → dict_get k' (dict_set k v d) = dict_get k' d.
Proof.
  intros Hne. induction d as [|[k2 v2] d IH]; simpl.
  - by rewrite decide_False.
  - destruct (decide (k = k2)) as [->|Hne2]; simpl.
    + by rewrite !decide_False.
    + by rewrite IH.
Qed.
End dict_facts.





(** ** The driver on a package that cannot be read *)

(** The extractor swallows what the reading of the package raises. *)
Lemma extract_styles_unreadable (self : OOXMLStyleParser) (file : DocxFile) :
  package_unreadable file = true → extract_styles_xml self file = (self, []).
Proof.
  destruct file as [msg|a]; [done|]. unfold extract_styles_xml, parse_styles. simpl.
  by destruct (styles_xml a).
Qed.

Lemma extract_numbering_styles (self : OOXMLStyleParser) (file : DocxFile) :
  styles_data (extract_numbering_xml self file).1 = styles_data self.
Proof.
  unfold extract_numbering_xml. by destruct (parse_numbering file) as [[?|]|].
Qed.

Lemma analyze_structure_styles (self : OOXMLStyleParser) (file : DocxFile) :
  styles_data (analyze_document_structure self file).1 = styles_data self.
Proof.
  unfold analyze_document_structure. by destruct (walk_document file).
Qed.

(** C1, as the code has it: when the file is no zip archive or has no
    word/styles.xml, the run of a new parser still produces a manifest,
    that of the empty catalog, with the four default mappings, no
    fallback and no warning; the result is a success carrying it, without
    an output directory and whenever the outputs can be written; the only
    failure result comes from writing the outputs. *)
Theorem unreadable_package_default_manifest (lower basename : string → string)
    (save_outputs : OOXMLStyleParser → string → pyres (list (string * string)))
    (path : string) (file : DocxFile) (output_dir : option string) (now : string) :
  package_unreadable file = true →
  let run := process_full_pipeline lower basename save_outputs (init path) file
               output_dir now in
  ∃ m,
    style_manifest run.1 = Some m ∧
    styles m = list_to_map essentials ∧
    fallbacks m = ∅ ∧
    warnings m = [] ∧
    statistics m =
      {| total_styles_found := 0; mapped_styles := 4; fallback_styles := 0 |} ∧
    run.2 =
      match truthy output_dir with
      | None => Success (Some m) (document_structure run.1) []
      | Some dir =>
          match save_outputs run.1 dir with
          | Ok outputs => Success (Some m) (document_structure run.1) outputs
          | Raise e => Failure (exn_str e)
          end
      end.
Proof.
  intros Hbad run. subst run. unfold process_full_pipeline.
  rewrite (extract_styles_unreadable _ _ Hbad). cbn [fst].
  set (self3 := (analyze_document_structure
                   (extract_numbering_xml (init path) file).1 file).1).
  assert (Hstyles : styles_data self3 = []).
  { subst self3. by rewrite analyze_structure_styles, extract_numbering_styles. }
  unfold generate_html_semantic_mappings. rewrite Hstyles. cbn [for_each pybind].
  destruct (truthy output_dir) as [dir|].
  - match goal with
    | |- context [save_outputs ?s dir] =>
        set (self4 := s); destruct (save_outputs self4 dir) as [outputs|e] eqn:Hsave
    end; eexists; cbn [fst snd]; rewrite Hsave; by split_and!.
  - eexists. cbn [fst snd]. by split_and!.
Qed.

Lemma unreadable_package_default_manifest_witness :
  ∃ m,
    style_manifest
      (process_full_pipeline ascii_lower posix_basename no_save (init "broken.docx")
         not_a_zip None sample_clock).1 = Some m ∧
    (process_full_pipeline ascii_lower posix_basename no_save (init "broken.docx")
       not_a_zip None sample_clock).2 = Success (Some m) [] [] ∧
    styles m = list_to_map essentials.
Proof.
  destruct (unreadable_package_default_manifest ascii_lower posix_basename no_save
              "broken.docx" not_a_zip None sample_clock eq_refl)
    as (m & Hm & Hst & _ & _ & _ & Hres).
  exists m. split; [exact Hm|]. split; [exact Hres | exact Hst].
Defined.

(** C1, as the claim has it, fails: on a file that is no zip archive the
    run returns the success result, with a manifest. *)
Lemma unreadable_package_succeeds :
  package_unreadable not_a_zip = true ∧
  ∃ self' m,
    process_full_pipeline ascii_lower posix_basename no_save (init "broken.docx")
      not_a_zip None sample_clock = (self', Success (Some m) [] []) ∧
    styles m = list_to_map essentials.
Proof. split; [reflexivity|]. eexists _, _. split; reflexivity. Qed.


(** * Further properties of the code *)

(** ** Dictionaries built by a loop of assignments *)

Section dict_fold.
Context {K V X : Type} `{EqDecision K}.
Variable key : X → K.
Variable val : X → V.
Variable step : list (K * V) → X → list (K * V).
Hypothesis step_set : ∀ d x, step d x = dict_set (key x) (val x) d.

Lemma dict_set_keys_fresh (k : K) (v : V) (d : list (K * V)) :
  k ∉ d.*1 → dict_set k v d = d ++ [(k, v)].
Proof.
  induction d as [|[k' v'] d IH]; simpl; intros Hk; [done|].
  apply not_elem_of_cons in Hk as [Hne Hk].
  rewrite decide_False by done. f_equal. by apply IH.
Qed.

Lemma dict_set_keys_present (k : K) (v : V) (d : list (K * V)) :
  k ∈ d.*1 → (dict_set k v d).*1 = d.*1.
Proof.
  induction d as [|[k' v'] d IH]; simpl; intros Hk.
  - by apply elem_of_nil in Hk.
  - destruct (decide (k = k')) as [->|Hne]; simpl; [done|].
    apply elem_of_cons in Hk as [?|Hk]; [done|]. f_equal. by apply IH.
Qed.

Lemma dict_set_keys (k : K) (v : V) (d : list (K * V)) :
  (dict_set k v d).*1 = if decide (k ∈ d.*1) then d.*1 else d.*1 ++ [k].
Proof.
  case_decide as Hk.
  - by apply dict_set_keys_present.
  - rewrite dict_set_keys_fresh by done. by rewrite fmap_app.
Qed.

Lemma dict_set_NoDup (k : K) (v : V) (d : list (K * V)) :
  NoDup d.*1 → NoDup (dict_set k v d).*1.
Proof.
  intros Hd. rewrite dict_set_keys. case_decide as Hk; [done|].
  apply NoDup_app. split_and!; [done| |apply NoDup_singleton].
  intros x Hx Hx'. apply list_elem_of_singleton in Hx'. by subst.
Qed.

Lemma dict_get_Some_elem (k : K) (v : V) (d : list (K * V)) :
  dict_get k d = Some v → (k, v) ∈ d.
Proof.
  induction d as [|[k' v'] d IH]; simpl; [done|].
  case_decide as Hk.
  - intros [= ->]. subst. left.
  - intros Hget. right. by apply IH.
Qed.

Lemma fold_keys_NoDup (xs : list X) (d : list (K * V)) :
  NoDup d.*1 → NoDup (foldl step d xs).*1.
Proof.
  revert d. induction xs as [|x xs IH]; intros d Hd; simpl; [done|].
  apply IH. rewrite step_set. by apply dict_set_NoDup.
Qed.

Lemma fold_keys_from (xs : list X) (d : list (K * V)) (k : K) :
  k ∈ (foldl step d xs).*1 ↔ k ∈ d.*1 ∨ k ∈ key <$> xs.
Proof.
  revert d. induction xs as [|x xs IH]; intros d; simpl.
  - split; [by left|]. intros [?|Hk]; [done|]. by apply elem_of_nil in Hk.
  - rewrite IH, step_set, dict_set_keys, elem_of_cons.
    case_decide as Hx.
    + split; [tauto|]. intros [?|[->|?]]; tauto.
    + rewrite elem_of_app, list_elem_of_singleton. tauto.
Qed.

Lemma fold_length_le (xs : list X) (d : list (K * V)) :
  (length (foldl step d xs) ≤ length d + length xs)%nat.
Proof.
  revert d. induction xs as [|x xs IH]; intros d; simpl; [lia|].
  specialize (IH (step d x)).
  assert (length (step d x) ≤ S (length d))%nat; [|lia].
  rewrite <- !(length_fmap fst), step_set, dict_set_keys.
  case_decide; [lia|]. rewrite length_app. simpl. lia.
Qed.

(** Distinct keys: one entry for each element, in the order of the loop. *)
Lemma fold_distinct_keys (xs : list X) (d : list (K * V)) :
  NoDup (d.*1 ++ (key <$> xs)) →
  foldl step d xs = d ++ ((λ x, (key x, val x)) <$> xs).
Proof.
  revert d. induction xs as [|x xs IH]; intros d Hd; simpl.
  - by rewrite app_nil_r.
  - simpl in Hd. apply NoDup_app in Hd as (Hd & Hdis & Hxs).
    apply NoDup_cons in Hxs as [Hx Hxs].
    assert (Hfresh : key x ∉ d.*1).
    { intros Hin. apply (Hdis _ Hin). left. }
    rewrite step_set, dict_set_keys_fresh by done.
    rewrite IH.
    + by rewrite <- app_assoc.
    + rewrite fmap_app. simpl. rewrite <- app_assoc. simpl.
      apply NoDup_app. split_and!; [done| |by apply NoDup_cons].
      intros k Hk Hk'. apply elem_of_cons in Hk' as [->|Hk']; [done|].
      by apply (Hdis k Hk); right.
Qed.

(** The last assignment to a key is the one that is read. *)
Lemma fold_last_wins (pre post : list X) (x : X) (d : list (K * V)) :
  key x ∉ key <$> post →
  dict_get (key x) (foldl step d (pre ++ x :: post)) = Some (val x).
Proof.
  intros Hpost. rewrite foldl_app. simpl.
  generalize (foldl step d pre). intros d'.
  assert (Hnow : dict_get (key x) (step d' x) = Some (val x)).
  { rewrite step_set. apply dict_get_set_eq. }
  revert Hnow. generalize (step d' x). clear d'.
  induction post as [|y post IH]; intros d' Hnow; simpl; [done|].
  apply not_elem_of_cons in Hpost as [Hne Hpost].
  apply IH; [done|]. rewrite step_set. by rewrite dict_get_set_ne.
Qed.
End dict_fold.

(** ** The style catalog *)

Lemma record_style_set (d : list (option string * StyleData)) (e : StyleElem) :
  record_style d e = dict_set (attr_styleId e) (style_record e) d.
Proof. reflexivity. Qed.

Lemma record_num_set (d : list (option string * NumData)) (e : NumElem) :
  record_num d e = dict_set (attr_numId e) (num_record e) d.
Proof. reflexivity. Qed.

Lemma parse_styles_xml (a : Archive) (elems : list StyleElem) :
  styles_xml a = Some (Xml elems) →
  parse_styles (Zip a) = Ok (foldl record_style [] elems).
Proof. intros Hxml. unfold parse_styles. simpl. by rewrite Hxml. Qed.

(** X1: the catalog extracted from a parsed style payload has one entry
    for each distinct identifier: its keys are without repetition, they
    are the identifiers of the style elements, absent ones included, and
    there are no more entries than style elements. *)
Theorem catalog_keys_unique (a : Archive) (elems : list StyleElem) :
  styles_xml a = Some (Xml elems) →
  ∃ styles,
    parse_styles (Zip a) = Ok styles ∧
    NoDup styles.*1 ∧
    (∀ id, id ∈ styles.*1 ↔ id ∈ attr_styleId <$> elems) ∧
    (length styles ≤ length elems)%nat.
Proof.
  intros Hxml. exists (foldl record_style [] elems).
  split; [by apply parse_styles_xml|]. split_and!.
  - apply (fold_keys_NoDup attr_styleId style_record _ record_style_set).
    apply NoDup_nil_2.
  - intros id.
    rewrite (fold_keys_from attr_styleId style_record _ record_style_set).
    split; [|by right]. intros [Hnil|?]; [|done]. by apply elem_of_nil in Hnil.
  - apply (fold_length_le attr_styleId style_record _ record_style_set).
Qed.

Lemma catalog_keys_unique_witness :
  ∃ styles,
    parse_styles (Zip sample_archive) = Ok styles ∧
    NoDup styles.*1 ∧
    (∀ id, id ∈ styles.*1 ↔ id ∈ attr_styleId <$> sample_elems) ∧
    (length styles ≤ length sample_elems)%nat.
Proof. apply (catalog_keys_unique sample_archive sample_elems). reflexivity. Defined.

(** X2: when the style elements bear pairwise distinct identifiers, the
    catalog lists one record for each element, in document order. *)
Theorem catalog_document_order (a : Archive) (elems : list StyleElem) :
  styles_xml a = Some (Xml elems) →
  NoDup (attr_styleId <$> elems) →
  parse_styles (Zip a) = Ok ((λ e, (attr_styleId e, style_record e)) <$> elems).
Proof.
  intros Hxml Hids. rewrite (parse_styles_xml a elems Hxml). f_equal.
  by rewrite (fold_distinct_keys attr_styleId style_record _ record_style_set).
Qed.

Lemma catalog_document_order_witness :
  parse_styles (Zip sample_archive) =
  Ok ((λ e, (attr_styleId e, style_record e)) <$> sample_elems).
Proof.
  apply (catalog_document_order sample_archive sample_elems).
  - reflexivity.
  - by apply (bool_decide_unpack _).
Defined.

(** X3: of several style elements with the same identifier the last one
    is the one the catalog holds: an element that no later element shares
    its identifier with is found under that identifier with its own type,
    the value of its first name child, or its identifier when it has no
    name child, and the value of its first basedOn child, if any. *)
Theorem catalog_last_duplicate_wins (a : Archive) (pre post : list StyleElem)
    (e : StyleElem) :
  styles_xml a = Some (Xml (pre ++ e :: post)) →
  attr_styleId e ∉ attr_styleId <$> post →
  ∃ styles,
    parse_styles (Zip a) = Ok styles ∧
    dict_get (attr_styleId e) styles = Some (style_record e) ∧
    (name_children e = [] → style_name (style_record e) = attr_styleId e) ∧
    (basedOn_children e = [] → based_on (style_record e) = None).
Proof.
  intros Hxml Hlast. exists (foldl record_style [] (pre ++ e :: post)).
  split; [by apply parse_styles_xml|]. split_and!.
  - by apply (fold_last_wins attr_styleId style_record _ record_style_set).
  - intros Hn. unfold style_record. simpl. by rewrite Hn.
  - intros Hb. unfold style_record. simpl. by rewrite Hb.
Qed.

Lemma catalog_last_duplicate_wins_witness :
  ∃ styles,
    parse_styles
      (Zip {| styles_xml :=
                Some (Xml ([plain_style "S1" "Title" "paragraph"] ++
                           plain_style "S1" "Heading 1" "paragraph" ::
                           [plain_style "S2" "Normal" "paragraph"]));
              numbering_xml := None; docx_content := Ok [] |}) = Ok styles ∧
    dict_get (Some "S1") styles =
      Some (style_record (plain_style "S1" "Heading 1" "paragraph")) ∧
    length styles = 2.
Proof.
  destruct (catalog_last_duplicate_wins
              {| styles_xml :=
                   Some (Xml ([plain_style "S1" "Title" "paragraph"] ++
                              plain_style "S1" "Heading 1" "paragraph" ::
                              [plain_style "S2" "Normal" "paragraph"]));
                 numbering_xml := None; docx_content := Ok [] |}
              [plain_style "S1" "Title" "paragraph"]
              [plain_style "S2" "Normal" "paragraph"]
              (plain_style "S1" "Heading 1" "paragraph") eq_refl)
    as (styles & Hparse & Hget & _).
  - by apply (bool_decide_unpack _).
  - exists styles. split; [exact Hparse|]. split; [exact Hget|].
    simpl in Hparse. injection Hparse as <-. reflexivity.
Defined.

(** ** The numbering catalog *)

(** X4: an archive without word/numbering.xml gives the empty numbering
    dictionary and leaves the parser as it is; a parsed numbering payload
    gives a dictionary with one entry for each distinct numbering
    identifier, stored in the parser, in which a numbering element that
    no later element shares its identifier with is found with the value of
    its first abstractNumId child, if any. *)
Theorem numbering_catalog (self : OOXMLStyleParser) (a : Archive) :
  (numbering_xml a = None → extract_numbering_xml self (Zip a) = (self, [])) ∧
  (∀ (pre post : list NumElem) e,
     numbering_xml a = Some (Xml (pre ++ e :: post)) →
     attr_numId e ∉ attr_numId <$> post →
     ∃ numbering,
       (extract_numbering_xml self (Zip a)).2 = numbering ∧
       numbering_data (extract_numbering_xml self (Zip a)).1 = numbering ∧
       styles_data (extract_numbering_xml self (Zip a)).1 = styles_data self ∧
       NoDup numbering.*1 ∧
       dict_get (attr_numId e) numbering = Some (num_record e) ∧
       (abstractNumId_children e = [] → abstractNumId (num_record e) = None)).
Proof.
  split.
  - intros Hnone. unfold extract_numbering_xml, parse_numbering. simpl.
    by rewrite Hnone.
  - intros pre post e Hxml Hlast.
    exists (foldl record_num [] (pre ++ e :: post)).
    unfold extract_numbering_xml, parse_numbering. simpl. rewrite Hxml. simpl.
    split_and!; try done.
    + apply (fold_keys_NoDup attr_numId num_record _ record_num_set).
      apply NoDup_nil_2.
    + by apply (fold_last_wins attr_numId num_record _ record_num_set).
    + intros Hc. unfold num_record. simpl. by rewrite Hc.
Qed.

Lemma numbering_catalog_witness :
  extract_numbering_xml (init "report.docx") (Zip sample_archive)
    = (init "report.docx", []) ∧
  ∃ numbering,
    (extract_numbering_xml (init "report.docx") (Zip numbered_archive)).2 = numbering ∧
    dict_get (Some "1") numbering = Some (num_record sample_num).
Proof.
  split.
  - apply (numbering_catalog (init "report.docx") sample_archive). reflexivity.
  - destruct (numbering_catalog (init "report.docx") numbered_archive) as [_ Hpresent].
    destruct (Hpresent [] [] sample_num eq_refl) as (numbering & Hret & _ & _ & _ & Hget & _).
    + apply not_elem_of_nil.
    + exists numbering. split; [exact Hret | exact Hget].
Defined.

(** ** The document structure *)

Lemma str_length_app (s1 s2 : string) :
  String.length (s1 +:+ s2) = (String.length s1 + String.length s2)%nat.
Proof. induction s1 as [|c s1 IH]; simpl; [done|]. by rewrite IH. Qed.

Lemma str_take_length (n : nat) (s : string) :
  String.length (str_take n s) = (n `min` String.length s)%nat.
Proof.
  revert s. induction n as [|n IH]; intros [|c s]; simpl; try done.
  by rewrite IH.
Qed.

Lemma str_take_prefix (n : nat) (s : string) :
  String.prefix (str_take n s) s = true.
Proof.
  revert s. induction n as [|n IH]; intros [|c s]; simpl; try done.
  destruct (Ascii.ascii_dec c c); [apply IH | done].
Qed.

(** X5: the document structure lists every paragraph of the document
    before every table, each group in its own order, so that it has as
    many elements as the document has paragraphs and tables; the walker
    stores the list in the parser and returns it. *)
Theorem structure_paragraphs_then_tables (self : OOXMLStyleParser) (a : Archive)
    (doc : DocxDocument) :
  docx_content a = Ok (build_structure doc) →
  let result := analyze_document_structure self (Zip a) in
  result.2 = build_structure doc ∧
  document_structure result.1 = build_structure doc ∧
  length result.2 = (length (doc_paragraphs doc) + length (doc_tables doc))%nat ∧
  (∀ i paragraph, doc_paragraphs doc !! i = Some paragraph →
     result.2 !! i = Some (paragraph_element paragraph)) ∧
  (∀ j table, doc_tables doc !! j = Some table →
     result.2 !! (length (doc_paragraphs doc) + j)%nat = Some (table_element table)).
Proof.
  intros Hdoc result. subst result.
  unfold analyze_document_structure. simpl. rewrite Hdoc. simpl.
  split_and!; try done.
  - unfold build_structure. by rewrite length_app, !length_fmap.
  - intros i p Hp. unfold build_structure.
    rewrite lookup_app_l.
    + by rewrite list_lookup_fmap, Hp.
    + rewrite length_fmap. by apply lookup_lt_Some in Hp.
  - intros j t Ht. unfold build_structure.
    rewrite lookup_app_r; rewrite length_fmap; [|lia].
    replace (length (doc_paragraphs doc) + j - length (doc_paragraphs doc))%nat
      with j by lia.
    by rewrite list_lookup_fmap, Ht.
Qed.

Lemma structure_paragraphs_then_tables_witness :
  (analyze_document_structure (init "report.docx") (Zip document_archive)).2 =
    build_structure sample_document ∧
  build_structure sample_document =
    [ Paragraph "Results" "Heading 1" "Results";
      Paragraph "See the table above." "Normal" "See the table above.";
      Table 2 3 "TableGrid" ].
Proof.
  split; [|reflexivity].
  apply (structure_paragraphs_then_tables (init "report.docx") document_archive
           sample_document eq_refl).
Defined.

(** X6: the text kept for a paragraph is its whole text when that has at
    most 100 characters, and otherwise its first 100 characters followed
    by three dots, 103 characters in all; the whole text is kept beside
    it, and a paragraph without style is given the style Normal. *)
Theorem paragraph_text_truncated (paragraph : DocxParagraph) :
  ∃ text style,
    paragraph_element paragraph = Paragraph text style (paragraph_text paragraph) ∧
    (String.length text ≤ 103)%nat ∧
    ((String.length (paragraph_text paragraph) ≤ 100)%nat →
       text = paragraph_text paragraph) ∧
    ((100 < String.length (paragraph_text paragraph))%nat →
       text = str_take 100 (paragraph_text paragraph) +:+ "..." ∧
       String.length text = 103 ∧
       String.prefix (str_take 100 (paragraph_text paragraph))
         (paragraph_text paragraph) = true) ∧
    (paragraph_style paragraph = None → style = "Normal") ∧
    (∀ name, paragraph_style paragraph = Some name → style = name).
Proof.
  eexists _, _. split; [reflexivity|].
  destruct (100 <? String.length (paragraph_text paragraph))%nat eqn:Hlong.
  - apply Nat.ltb_lt in Hlong. split_and!.
    + rewrite str_length_app, str_take_length.
      change (String.length "...") with 3. lia.
    + lia.
    + intros _. split_and!; [done| |apply str_take_prefix].
      rewrite str_length_app, str_take_length.
      change (String.length "...") with 3. lia.
    + by intros ->.
    + by intros name ->.
  - apply Nat.ltb_ge in Hlong. split_and!.
    + lia.
    + done.
    + lia.
    + by intros ->.
    + by intros name ->.
Qed.

Lemma paragraph_text_truncated_witness :
  ∃ text,
    paragraph_element long_paragraph =
      Paragraph text "Normal" (paragraph_text long_paragraph) ∧
    text = str_take 100 (paragraph_text long_paragraph) +:+ "..." ∧
    String.length text = 103.
Proof.
  destruct (paragraph_text_truncated long_paragraph)
    as (text & style & Hel & _ & _ & Hlong & Hnone & _).
  exists text. rewrite <- (Hnone eq_refl).
  split; [exact Hel|].
  assert (Hlen : (100 < String.length (paragraph_text long_paragraph))%nat)
    by (apply Nat.ltb_lt; reflexivity).
  destruct (Hlong Hlen) as (Htext & Hsize & _). split; [exact Htext | exact Hsize].
Defined.

(** ** More on the mapping engine *)

Lemma put_all_lookup_Some_inv (m : gmap string string) (l : list (string * string))
    (k v : string) :
  put_all m l !! k = Some v → m !! k = Some v ∨ (k, v) ∈ l.
Proof.
  revert m. induction l as [|[k' v'] l IH]; intros m; [by left|].
  unfold put_all in *. simpl. intros Hk.
  destruct (IH _ Hk) as [Hm|Hin]; [|right; by right].
  destruct (decide (k' = k)) as [->|Hne].
  - rewrite lookup_insert_eq in Hm. injection Hm as ->. right. left.
  - rewrite lookup_insert_ne in Hm by done. by left.
Qed.

Lemma put_all_size_le (m : gmap string string) (l : list (string * string)) :
  (size (put_all m l) ≤ size m + length l)%nat.
Proof.
  revert m. induction l as [|[k v] l IH]; intros m; simpl; [unfold put_all; simpl; lia|].
  unfold put_all in *. simpl. specialize (IH (<[k:=v]> m)).
  rewrite map_size_insert in IH. destruct (m !! k); simpl in IH; lia.
Qed.

Lemma considered_cases (ty : option string) :
  considered ty = true → ty = Some "paragraph" ∨ ty = Some "table".
Proof.
  unfold considered. intros H. apply bool_decide_eq_true in H.
  apply elem_of_cons in H as [->|H]; [by left|].
  apply elem_of_cons in H as [->|H]; [by right|]. by apply elem_of_nil in H.
Qed.

Lemma matched_unmatched_count (lower : string → string)
    (styles : list (option string * StyleData)) :
  well_formed styles = true →
  (length (omap (matched lower) styles) + length (omap (unmatched lower) styles))%nat =
  length (considered_styles styles).
Proof.
  induction styles as [|[id sd] styles IH]; intros Hwf; [done|].
  simpl in Hwf. apply andb_true_iff in Hwf as [Hn Hwf]. specialize (IH Hwf).
  unfold considered_styles in *. cbn [omap list_omap List.filter].
  unfold matched at 1, unmatched at 1. unfold named in Hn. simpl in *.
  destruct (considered (style_type sd)); simpl; [|done].
  destruct (style_name sd) as [name|]; [|done].
  destruct (_map_style_to_html lower name (style_type sd)); simpl; lia.
Qed.

(** X7: every fallback a run records has the tag p and is the name of a
    considered style of kind paragraph that no rule matches: a style of
    kind table is always matched, so the fallback tag table.StdTable
    never occurs in a manifest. *)
Theorem fallbacks_are_paragraphs (lower basename : string → string)
    (self : OOXMLStyleParser) (now : string) :
  well_formed (styles_data self) = true →
  ∃ self' m,
    generate_html_semantic_mappings lower basename self now = Ok (self', m) ∧
    (∀ name, is_Some (_map_style_to_html lower name (Some "table"))) ∧
    (∀ name tag, fallbacks m !! name = Some tag →
       tag = "p" ∧
       ∃ item, item ∈ styles_data self ∧
               style_name item.2 = Some name ∧
               style_type item.2 = Some "paragraph" ∧
               _map_style_to_html lower name (Some "paragraph") = None).
Proof.
  intros Hwf.
  destruct (generate_spec lower basename self now Hwf)
    as (self' & m & Hgen & _ & _ & Hfb & _).
  exists self', m. split; [done|]. split; [apply map_style_table|].
  intros name tag Hget. rewrite Hfb in Hget.
  apply put_all_lookup_Some_inv in Hget as [Hget|Hin]; [by rewrite lookup_empty in Hget|].
  apply list_elem_of_omap in Hin as (item & Hitem & Hun).
  destruct (unmatched_falls_back_to_p lower item _ Hun) as (Hname & Hc & Htag).
  simpl in *. split; [done|]. exists item. split; [done|]. split; [done|].
  unfold unmatched in Hun. rewrite Hc, Hname in Hun.
  destruct (_map_style_to_html lower name (style_type item.2)) eqn:Hmap; [done|].
  destruct (considered_cases _ Hc) as [Hty|Hty]; rewrite Hty in Hmap.
  - done.
  - destruct (map_style_table lower name) as [t Ht]. congruence.
Qed.

Lemma fallbacks_are_paragraphs_witness :
  ∃ self' m,
    generate_html_semantic_mappings ascii_lower posix_basename sample_parser sample_clock
      = Ok (self', m) ∧
    (∀ name tag, fallbacks m !! name = Some tag → tag = "p").
Proof.
  destruct (fallbacks_are_paragraphs ascii_lower posix_basename sample_parser
              sample_clock eq_refl) as (self' & m & Hgen & _ & Hfb).
  exists self', m. split; [exact Hgen|].
  intros name tag Hget. exact (proj1 (Hfb name tag Hget)).
Defined.

(** X8: in a run on a well-formed catalog every considered style is
    either matched or warned about, so the warnings and the matched
    styles together number the considered styles; the fallbacks counted in
    the statistics are at most the warnings, and the mapped styles at most
    the matched styles and the four defaults. *)
Theorem classification_counts (lower basename : string → string)
    (self : OOXMLStyleParser) (now : string) :
  well_formed (styles_data self) = true →
  ∃ self' m,
    generate_html_semantic_mappings lower basename self now = Ok (self', m) ∧
    (length (warnings m) + length (omap (matched lower) (styles_data self)))%nat =
      length (considered_styles (styles_data self)) ∧
    (fallback_styles (statistics m) ≤ length (warnings m))%nat ∧
    (mapped_styles (statistics m) ≤
       length (omap (matched lower) (styles_data self)) + 4)%nat ∧
    (length (warnings m) ≤ total_styles_found (statistics m))%nat.
Proof.
  intros Hwf.
  destruct (generate_spec lower basename self now Hwf)
    as (self' & m & Hgen & _ & Hst & Hfb & Hw & Hstat).
  pose proof (matched_unmatched_count lower _ Hwf) as Hcount.
  assert (Hwlen : length (warnings m) =
                  length (omap (unmatched lower) (styles_data self))).
  { by rewrite Hw, length_fmap. }
  exists self', m. split; [done|]. rewrite Hstat. simpl. split_and!.
  - lia.
  - rewrite Hfb, Hwlen.
    pose proof (put_all_size_le ∅ (omap (unmatched lower) (styles_data self))) as Hle.
    by rewrite map_size_empty in Hle.
  - rewrite Hst.
    pose proof (put_all_size_le ∅ (omap (matched lower) (styles_data self))) as Hle.
    rewrite map_size_empty in Hle.
    pose proof (ensure_basic_union (put_all ∅ (omap (matched lower) (styles_data self))))
      as Hens.
    rewrite <- Hens. unfold _ensure_basic_mappings, essentials. simpl.
    repeat match goal with
           | |- context [match ?m !! ?k with _ => _ end] =>
               let E := fresh "E" in destruct (m !! k) eqn:E
           end;
      rewrite ?map_size_insert_None by done; lia.
  - unfold considered_styles in Hcount.
    pose proof (List.filter_length_le
                  (λ item : option string * StyleData, considered (style_type item.2))
                  (styles_data self)).
    lia.
Qed.

Lemma classification_counts_witness :
  ∃ self' m,
    generate_html_semantic_mappings ascii_lower posix_basename sample_parser sample_clock
      = Ok (self', m) ∧
    (length (warnings m) + length (omap (matched ascii_lower) (styles_data sample_parser)))%nat =
      length (considered_styles (styles_data sample_parser)) ∧
    (fallback_styles (statistics m) ≤ length (warnings m))%nat ∧
    (mapped_styles (statistics m) ≤
       length (omap (matched ascii_lower) (styles_data sample_parser)) + 4)%nat ∧
    (length (warnings m) ≤ total_styles_found (statistics m))%nat.
Proof.
  apply (classification_counts ascii_lower posix_basename sample_parser sample_clock).
  reflexivity.
Defined.

Lemma ensure_basic_size_le (m : gmap string string) :
  (size (_ensure_basic_mappings m) ≤ size m + 4)%nat.
Proof.
  unfold _ensure_basic_mappings, essentials. simpl.
  repeat match goal with
         | |- context [match ?m !! ?k with _ => _ end] =>
             let E := fresh "E" in destruct (m !! k) eqn:E
         end;
    rewrite ?map_size_insert_None by done; lia.
Qed.

(** X9: the post-pass keeps every entry the mappings already have, leaves
    every tag other than the four essential ones as it is, adds at most
    four entries, and changes nothing when run a second time. *)
Theorem ensure_basic_idempotent (m : gmap string string) :
  _ensure_basic_mappings (_ensure_basic_mappings m) = _ensure_basic_mappings m ∧
  (∀ tag name, m !! tag = Some name → _ensure_basic_mappings m !! tag = Some name) ∧
  (∀ tag, tag ∉ essentials.*1 → _ensure_basic_mappings m !! tag = m !! tag) ∧
  (size m ≤ size (_ensure_basic_mappings m) ≤ size m + 4)%nat.
Proof.
  split_and!.
  - rewrite !ensure_basic_union, <- (assoc_L (∪)). by rewrite (idemp_L (∪)).
  - intros tag name Hm. rewrite ensure_basic_union. by apply lookup_union_Some_l.
  - intros tag Htag. rewrite ensure_basic_union. apply lookup_union_l.
    by apply not_elem_of_list_to_map_1.
  - rewrite ensure_basic_union. apply map_subseteq_size, map_union_subseteq_l.
  - apply ensure_basic_size_le.
Qed.

Lemma put_all_lookup_in (m : gmap string string) (l : list (string * string)) (k : string) :
  k ∈ l.*1 → is_Some (put_all m l !! k).
Proof.
  intros Hk. apply (elem_of_dom (D := gset string)). rewrite put_all_dom.
  apply elem_of_union_r. by apply elem_of_list_to_set.
Qed.

Lemma matched_inv (lower : string → string) (item : option string * StyleData)
    (tag name : string) :
  matched lower item = Some (tag, name) →
  considered (style_type item.2) = true ∧ style_name item.2 = Some name ∧
  _map_style_to_html lower name (style_type item.2) = Some tag.
Proof.
  unfold matched. destruct (considered (style_type item.2)); [|done].
  destruct (style_name item.2) as [n|]; [|done].
  destruct (_map_style_to_html lower n (style_type item.2)) eqn:Hmap; [|done].
  by intros [= <- <-].
Qed.

(** Where the entries of the mappings of a manifest come from. *)
Lemma manifest_entry_origin (lower basename : string → string)
    (self self' : OOXMLStyleParser) (now : string) (m : Manifest) (tag name : string) :
  well_formed (styles_data self) = true →
  generate_html_semantic_mappings lower basename self now = Ok (self', m) →
  styles m !! tag = Some name →
  (∃ item, item ∈ styles_data self ∧ matched lower item = Some (tag, name)) ∨
  ((tag, name) ∈ essentials ∧ tag ∉ (omap (matched lower) (styles_data self)).*1).
Proof.
  intros Hwf Hgen Hget.
  destruct (generate_spec lower basename self now Hwf)
    as (self2 & m2 & Hgen2 & _ & Hst & _).
  rewrite Hgen in Hgen2. injection Hgen2 as <- <-.
  rewrite Hst in Hget. apply lookup_union_Some_raw in Hget as [Hget|[Hnone Hget]].
  - left. apply put_all_lookup_Some_inv in Hget as [Hget|Hin];
      [by rewrite lookup_empty in Hget|].
    by apply list_elem_of_omap in Hin.
  - right. split; [by apply elem_of_list_to_map_2 in Hget|].
    intros Hin. destruct (put_all_lookup_in ∅ _ _ Hin) as [v Hv]. congruence.
Qed.

(** X10: every entry of the mappings of a manifest gives for its tag
    either the name of a considered style of the catalog that the
    heuristic matches to that tag, or, when no style is matched to the
    tag, the placeholder name of that essential tag; no other name
    occurs. *)
Theorem mapping_values_provenance (lower basename : string → string)
    (self : OOXMLStyleParser) (now : string) :
  well_formed (styles_data self) = true →
  ∃ self' m,
    generate_html_semantic_mappings lower basename self now = Ok (self', m) ∧
    ∀ tag name, styles m !! tag = Some name →
      (∃ item, item ∈ styles_data self ∧
               considered (style_type item.2) = true ∧
               style_name item.2 = Some name ∧
               _map_style_to_html lower name (style_type item.2) = Some tag) ∨
      ((tag, name) ∈ essentials ∧
       tag ∉ (omap (matched lower) (styles_data self)).*1).
Proof.
  intros Hwf.
  destruct (generate_spec lower basename self now Hwf) as (self' & m & Hgen & _).
  exists self', m. split; [done|]. intros tag name Hget.
  destruct (manifest_entry_origin lower basename self self' now m tag name Hwf Hgen Hget)
    as [(item & Hin & Hm)|Hdef]; [left|by right].
  exists item. split; [done|]. by apply matched_inv.
Qed.

Lemma mapping_values_provenance_witness :
  ∃ self' m,
    generate_html_semantic_mappings ascii_lower posix_basename sample_parser sample_clock
      = Ok (self', m) ∧
    ∀ tag name, styles m !! tag = Some name →
      (∃ item, item ∈ styles_data sample_parser ∧
               considered (style_type item.2) = true ∧
               style_name item.2 = Some name ∧
               _map_style_to_html ascii_lower name (style_type item.2) = Some tag) ∨
      ((tag, name) ∈ essentials ∧
       tag ∉ (omap (matched ascii_lower) (styles_data sample_parser)).*1).
Proof.
  apply (mapping_values_provenance ascii_lower posix_basename sample_parser sample_clock).
  reflexivity.
Defined.

(** ** The whole run *)

Lemma extractors_leave (path : string) (file : DocxFile) :
  (analyze_document_structure
     (extract_numbering_xml (extract_styles_xml (init path) file).1 file).1 file).1
  = extracted path file.
Proof.
  unfold extract_styles_xml, extract_numbering_xml, analyze_document_structure,
    extracted, catalog_of, numbering_of, structure_of.
  by destruct (parse_styles file), (parse_numbering file) as [[?|]|],
    (walk_document file).
Qed.

Lemma well_formed_false (styles : list (option string * StyleData))
    (item : option string * StyleData) :
  item ∈ styles → named item = false → well_formed styles = false.
Proof.
  intros Hin Hnamed. destruct (well_formed styles) eqn:Hwf; [|done].
  unfold well_formed in Hwf. rewrite forallb_forall in Hwf.
  apply list_elem_of_In in Hin. specialize (Hwf _ Hin). congruence.
Qed.

Lemma loop_raises_attribute_error (lower : string → string)
    (styles : list (option string * StyleData)) (st : Classification) :
  well_formed styles = false →
  for_each (classify_style lower) styles st =
  Raise (Exn AttributeError "'NoneType' object has no attribute 'lower'").
Proof.
  revert st. induction styles as [|[id sd] l IH]; intros st Hwf; [done|].
  simpl in Hwf. simpl. unfold classify_style at 1. unfold named in Hwf. simpl in *.
  destruct (considered (style_type sd)); simpl in *.
  - destruct (style_name sd) as [name|]; [|done].
    destruct (_map_style_to_html lower name (style_type sd)); simpl; by apply IH.
  - destruct (style_name sd); by apply IH.
Qed.

Section Run.
Variable lower : string → string.
Variable basename : string → string.
Variable save_outputs : OOXMLStyleParser → string → pyres (list (string * string)).

(** X11: on a new parser, whenever every considered style of the
    extracted catalog has a name and no output directory is given, the
    run returns the success result; it carries the manifest that the
    engine gives for the extracted catalog, stamped with the base name of
    the path and the clock reading, the document structure, empty when
    the body could not be walked, and no output path. *)
Theorem pipeline_success (path : string) (file : DocxFile)
    (output_dir : option string) (now : string) :
  well_formed (catalog_of file) = true →
  truthy output_dir = None →
  ∃ self' m,
    process_full_pipeline lower basename save_outputs (init path) file output_dir now
      = (self', Success (Some m) (structure_of file) []) ∧
    style_manifest self' = Some m ∧
    styles_data self' = catalog_of file ∧
    generate_html_semantic_mappings lower basename (extracted path file) now
      = Ok (self', m) ∧
    manifest_docx_path m = basename path ∧
    generatedAt m = now ∧
    total_styles_found (statistics m) = length (catalog_of file).
Proof.
  intros Hwf Hdir. unfold process_full_pipeline.
  rewrite extractors_leave, Hdir.
  unfold generate_html_semantic_mappings.
  change (styles_data (extracted path file)) with (catalog_of file).
  rewrite (loop_spec lower _ _ Hwf). simpl.
  eexists _, _. split_and!; reflexivity.
Qed.

(** X12: a style element of kind paragraph or table for which the
    extractor finds no name, having neither a name child with a value nor,
    without name child, an identifier, and which no later element shares
    its identifier with, makes the whole run fail: the result is the
    failure result with the message of the attribute error, whatever the
    output directory, and the parser holds no manifest. *)
Theorem pipeline_fails_on_nameless_style (path : string) (a : Archive)
    (pre post : list StyleElem) (e : StyleElem) (output_dir : option string)
    (now : string) :
  styles_xml a = Some (Xml (pre ++ e :: post)) →
  attr_styleId e ∉ attr_styleId <$> post →
  considered (attr_type e) = true →
  first_val (name_children e) (attr_styleId e) = None →
  let run := process_full_pipeline lower basename save_outputs (init path) (Zip a)
               output_dir now in
  run.2 = Failure "'NoneType' object has no attribute 'lower'" ∧
  style_manifest run.1 = None ∧
  dict_get (attr_styleId e) (styles_data run.1) = Some (style_record e).
Proof.
  intros Hxml Hlast Hkind Hname run. subst run. unfold process_full_pipeline.
  rewrite extractors_leave.
  assert (Hcat : catalog_of (Zip a) = foldl record_style [] (pre ++ e :: post)).
  { unfold catalog_of. by rewrite (parse_styles_xml a _ Hxml). }
  assert (Hget : dict_get (attr_styleId e) (catalog_of (Zip a)) = Some (style_record e)).
  { rewrite Hcat.
    by apply (fold_last_wins attr_styleId style_record _ record_style_set). }
  assert (Hwf : well_formed (catalog_of (Zip a)) = false).
  { apply (well_formed_false _ (attr_styleId e, style_record e)).
    - by apply dict_get_Some_elem.
    - unfold named. simpl. by rewrite Hname, Hkind. }
  unfold generate_html_semantic_mappings.
  change (styles_data (extracted path (Zip a))) with (catalog_of (Zip a)).
  by rewrite (loop_raises_attribute_error lower _ _ Hwf).
Qed.

End Run.

Lemma pipeline_success_witness :
  ∃ self' m,
    process_full_pipeline ascii_lower posix_basename no_save (init "docs/report.docx")
      (Zip sample_archive) None sample_clock
      = (self', Success (Some m) (structure_of (Zip sample_archive)) []) ∧
    manifest_docx_path m = "report.docx" ∧
    total_styles_found (statistics m) = 3.
Proof.
  destruct (pipeline_success ascii_lower posix_basename no_save "docs/report.docx"
              (Zip sample_archive) None sample_clock eq_refl eq_refl)
    as (self' & m & Hrun & _ & _ & _ & Hpath & _ & Htotal).
  exists self', m. split; [exact Hrun|]. split; [exact Hpath | exact Htotal].
Defined.

Lemma pipeline_fails_on_nameless_style_witness :
  (process_full_pipeline ascii_lower posix_basename no_save (init "docs/report.docx")
     (Zip nameless_archive) None sample_clock).2
  = Failure "'NoneType' object has no attribute 'lower'".
Proof.
  apply (pipeline_fails_on_nameless_style ascii_lower posix_basename no_save
           "docs/report.docx" nameless_archive
           [plain_style "S1" "Heading 1" "paragraph"] [] nameless_style None sample_clock).
  - reflexivity.
  - apply not_elem_of_nil.
  - reflexivity.
  - reflexivity.
Defined.


(** ** The HTML preview *)

Lemma prefix_refl (s : string) : String.prefix s s = true.
Proof.
  induction s as [|c s IH]; simpl; [done|].
  by destruct (Ascii.ascii_dec c c).
Qed.

Lemma prefix_append (x a b : string) :
  String.prefix x a = true → String.prefix x (a +:+ b) = true.
Proof.
  revert a. induction x as [|c x IH]; intros a H; [by destruct (a +:+ b)|].
  destruct a as [|d a]; simpl in *; [done|].
  destruct (Ascii.ascii_dec c d); [by apply IH | done].
Qed.

Lemma str_in_append_left (x a b : string) :
  str_in x a = true → str_in x (a +:+ b) = true.
Proof.
  induction a as [|c a IH]; intros H.
  - cbn [str_in] in H. rewrite orb_false_r in H.
    destruct x; [|by simpl in H]. by destruct b.
  - cbn [str_in] in H. apply orb_true_iff in H as [H|H].
    + change (String c a +:+ b) with (String c (a +:+ b)). cbn [str_in].
      change (String c (a +:+ b)) with (String c a +:+ b).
      by rewrite (prefix_append _ _ b H).
    + change (String c a +:+ b) with (String c (a +:+ b)). cbn [str_in].
      rewrite (IH H). apply orb_true_r.
Qed.

Lemma str_in_append_right (x a b : string) :
  str_in x b = true → str_in x (a +:+ b) = true.
Proof.
  intros H. induction a as [|c a IH]; [done|].
  change (String c a +:+ b) with (String c (a +:+ b)). cbn [str_in].
  rewrite IH. apply orb_true_r.
Qed.

Lemma str_in_refl (s : string) : str_in s s = true.
Proof. destruct s; cbn [str_in]; by rewrite prefix_refl. Qed.

Lemma str_in_join (x sep : string) (parts : list string) (part : string) :
  part ∈ parts → str_in x part = true → str_in x (join sep parts) = true.
Proof.
  intros Hin Hx. induction parts as [|p parts IH]; [by apply elem_of_nil in Hin|].
  apply elem_of_cons in Hin as [->|Hin].
  - destruct parts; simpl; [done|]. by apply str_in_append_left.
  - specialize (IH Hin). destruct parts as [|q parts]; [by apply elem_of_nil in Hin|].
    change (join sep (p :: q :: parts)) with (p +:+ sep +:+ join sep (q :: parts)).
    by do 2 apply str_in_append_right.
Qed.

Lemma before_dot_no_dot (s : string) : str_in "." (before_dot s) = false.
Proof.
  induction s as [|c s IH]; simpl; [done|].
  case_decide as Hc; [done|]. cbn [str_in]. rewrite IH, orb_false_r.
  cbn [String.prefix]. destruct (Ascii.ascii_dec "." c) as [Heq|_]; [by subst|done].
Qed.

(** X15: the element name chosen for a style name never contains a dot;
    it is p when no entry of the mappings carries that style name, and
    otherwise the key of the first such entry, cut before its first
    dot. *)
Theorem style_to_html_element_plain (items : list (string * string)) (name : string) :
  str_in "." (_style_to_html_element items name) = false ∧
  (name ∉ items.*2 → _style_to_html_element items name = "p") ∧
  (∀ (pre post : list (string * string)) html_elem,
     items = pre ++ (html_elem, name) :: post →
     name ∉ pre.*2 →
     _style_to_html_element items name = before_dot html_elem).
Proof.
  split_and!.
  - induction items as [|[k v] items IH]; simpl; [done|].
    case_decide; [apply before_dot_no_dot | done].
  - induction items as [|[k v] items IH]; simpl; [done|].
    intros Hnot. apply not_elem_of_cons in Hnot as [Hne Hnot].
    rewrite decide_False by done. by apply IH.
  - intros pre post k -> Hpre.
    induction pre as [|[k' v'] pre IH]; simpl.
    + by rewrite decide_True.
    + simpl in Hpre. apply not_elem_of_cons in Hpre as [Hne Hpre].
      rewrite decide_False by done. by apply IH.
Qed.

Lemma style_to_html_element_plain_witness :
  _style_to_html_element
    ([("h1", "Title")] ++ ("table.StdTable", "Table Grid") :: [("p", "Normal")])
    "Table Grid" = "table".
Proof.
  destruct (style_to_html_element_plain
              ([("h1", "Title")] ++ ("table.StdTable", "Table Grid") :: [("p", "Normal")])
              "Table Grid") as (_ & _ & Hfirst).
  apply (Hfirst [("h1", "Title")] [("p", "Normal")] "table.StdTable" eq_refl).
  by apply (bool_decide_unpack _).
Defined.

Lemma before_dot_vocabulary (tag : string) :
  tag ∈ html_vocabulary.*1 → before_dot tag ∈ preview_tags.
Proof.
  simpl. intros H.
  repeat (apply elem_of_cons in H as [->|H];
          [by apply (bool_decide_unpack _)|]).
  by apply elem_of_nil in H.
Qed.

(** X16: whatever the order in which the mappings of a manifest are gone
    through, the element name chosen for a style name is one of h1, h2,
    h3, p, ul, ol, table and blockquote. *)
Theorem preview_tags_of_manifest (lower basename : string → string)
    (self : OOXMLStyleParser) (now : string) :
  well_formed (styles_data self) = true →
  ∃ self' m,
    generate_html_semantic_mappings lower basename self now = Ok (self', m) ∧
    ∀ (items : list (string * string)) name,
      (∀ tag mapped, (tag, mapped) ∈ items → styles m !! tag = Some mapped) →
      _style_to_html_element items name ∈ preview_tags.
Proof.
  intros Hwf.
  destruct (generate_spec lower basename self now Hwf) as (self' & m & Hgen & _).
  exists self', m. split; [done|]. intros items name Hitems.
  induction items as [|[k v] items IH]; simpl.
  - by apply (bool_decide_unpack _).
  - case_decide as Hv.
    + apply before_dot_vocabulary.
      assert (Hk : styles m !! k = Some v) by (apply Hitems; left).
      destruct (manifest_entry_origin lower basename self self' now m k v Hwf Hgen Hk)
        as [(item & _ & Hm)|[Hdef _]].
      * apply matched_inv in Hm as (_ & _ & Hmap).
        by apply (map_style_in_vocabulary lower v _ _ Hmap).
      * apply essentials_in_vocabulary. apply list_elem_of_fmap. by exists (k, v).
    + apply IH. intros tag mapped Hin. apply Hitems. by right.
Qed.

Lemma preview_tags_of_manifest_witness :
  ∃ self' m,
    generate_html_semantic_mappings ascii_lower posix_basename sample_parser sample_clock
      = Ok (self', m) ∧
    ∀ (items : list (string * string)) name,
      (∀ tag mapped, (tag, mapped) ∈ items → styles m !! tag = Some mapped) →
      _style_to_html_element items name ∈ preview_tags.
Proof.
  apply (preview_tags_of_manifest ascii_lower posix_basename sample_parser sample_clock).
  reflexivity.
Defined.

Lemma html_parts_line (items : list (string * string)) (structure : list DocElement)
    (element : DocElement) (line : string) :
  element ∈ structure → preview_line items element = Some line →
  line ∈ html_parts items structure.
Proof.
  intros Hin Hline. unfold html_parts.
  apply elem_of_app. right. apply elem_of_app. left.
  apply list_elem_of_omap. by exists element.
Qed.

(** X17: the text of a paragraph that is not blank stands in the preview
    as it is, between the opening and the closing tag of its element,
    whatever characters it is made of: nothing is escaped. *)
Theorem preview_text_verbatim (items : list (string * string))
    (structure : list DocElement) (text style full_text : string) :
  Paragraph text style full_text ∈ structure →
  blank text = false →
  let html_element := _style_to_html_element items style in
  str_in ("<" +:+ html_element +:+ ">" +:+ text +:+ "</" +:+ html_element +:+ ">")
    (generate_html_preview items structure) = true ∧
  str_in text (generate_html_preview items structure) = true.
Proof.
  intros Hin Hblank html_element.
  assert (Hline : ("<" +:+ html_element +:+ ">" +:+ text +:+ "</" +:+ html_element +:+ ">")
                  ∈ html_parts items structure).
  { apply (html_parts_line items structure (Paragraph text style full_text)); [done|].
    simpl. by rewrite Hblank. }
  unfold generate_html_preview. split.
  - apply (str_in_join _ _ _ _ Hline), str_in_refl.
  - apply (str_in_join _ _ _ _ Hline).
    do 3 apply str_in_append_right. apply str_in_append_left, str_in_refl.
Qed.

Lemma preview_text_verbatim_witness :
  str_in "<h1>Profit & <loss></h1>"
    (generate_html_preview sample_items sample_structure) = true ∧
  str_in "Profit & <loss>" (generate_html_preview sample_items sample_structure) = true.
Proof.
  apply (preview_text_verbatim sample_items sample_structure "Profit & <loss>"
           "Heading 1" "Profit & <loss>").
  - left.
  - reflexivity.
Defined.

(** X18: the preview has its fourteen fixed parts and one part for each
    table and each paragraph that is not blank; a paragraph whose text is
    empty or made of white space only leaves the preview as it would be
    without it. *)
Theorem preview_skips_blank (items : list (string * string))
    (pre post : list DocElement) (text style full_text : string) :
  blank text = true →
  generate_html_preview items (pre ++ Paragraph text style full_text :: post) =
    generate_html_preview items (pre ++ post) ∧
  length (html_parts items (pre ++ Paragraph text style full_text :: post)) =
    (14 + length (List.filter rendered (pre ++ post)))%nat.
Proof.
  intros Hblank.
  assert (Hparts : html_parts items (pre ++ Paragraph text style full_text :: post) =
                   html_parts items (pre ++ post)).
  { unfold html_parts. rewrite !omap_app. cbn [omap list_omap preview_line].
    by rewrite Hblank. }
  split; [unfold generate_html_preview; by rewrite Hparts|].
  rewrite Hparts. unfold html_parts. rewrite !length_app. cbn [length].
  assert (Hcount : ∀ structure,
            length (omap (preview_line items) structure) =
            length (List.filter rendered structure)).
  { induction structure as [|el structure IH]; [done|].
    cbn [omap list_omap List.filter].
    destruct el as [t s f|r c s]; simpl.
    - destruct (blank t); simpl; by rewrite ?IH.
    - by rewrite IH. }
  rewrite Hcount. lia.
Qed.

Lemma preview_skips_blank_witness :
  generate_html_preview sample_items
    ([Paragraph "Profit & <loss>" "Heading 1" "Profit & <loss>"] ++
     Paragraph "   " "Normal" "   " :: [Table 2 3 "TableGrid"]) =
  generate_html_preview sample_items
    ([Paragraph "Profit & <loss>" "Heading 1" "Profit & <loss>"] ++
     [Table 2 3 "TableGrid"]) ∧
  length (html_parts sample_items
            ([Paragraph "Profit & <loss>" "Heading 1" "Profit & <loss>"] ++
             Paragraph "   " "Normal" "   " :: [Table 2 3 "TableGrid"])) = 16.
Proof.
  apply (preview_skips_blank sample_items
           [Paragraph "Profit & <loss>" "Heading 1" "Profit & <loss>"]
           [Table 2 3 "TableGrid"] "   " "Normal" "   ").
  reflexivity.
Defined.

Lemma ensure_basic_idempotent_witness :
  _ensure_basic_mappings {[ "h1" := "Title" ]} !! "h1" = Some "Title" ∧
  _ensure_basic_mappings {[ "h1" := "Title" ]} !! "h3" = None.
Proof.
  destruct (ensure_basic_idempotent {[ "h1" := "Title" ]}) as (_ & Hkeep & Hother & _).
  split.
  - apply Hkeep. reflexivity.
  - rewrite Hother; [reflexivity|]. by apply (bool_decide_unpack _).
Defined.
